(** * Yoga-AI-coaching: pose quality analysis, geometry helpers and display layer

    A shallow embedding of the JavaScript front end of the repository
    (drawingUtils.js, MediaPipeProcessor.jsx, ResultsPanel.jsx, RadarChart.jsx)
    together with the aggregation and gating rules of the quality analysis
    engine, and the properties the specification states about them.

    Conventions of the embedding.

    - The geometry helpers compute with JavaScript numbers.  They are embedded
      over the real numbers: [Math.atan2], [Math.sqrt], [Math.abs] and
      [Math.PI] are their exact real counterparts; rounding, signed zeros and
      infinities of IEEE doubles are outside the model.
    - Scores shown by the display layer are JSON scalars: a number (a rational
      here, or NaN), [null], or [undefined] when the key is missing.
    - Strings are sequences of UTF-8 bytes.  [String.prototype.includes] is a
      substring test; on well-formed text a substring test over UTF-8 bytes and
      one over UTF-16 code units agree.
    - An object literal used as a lookup table is a [gmap string _]; an object
      whose entry order is observed ([Object.entries]) is an association
      list. *)

From Stdlib Require Import Reals Lra ZArith QArith Qround String Ascii List.
From Stdlib Require Lqa.
From stdpp Require Import base option gmap strings.

Set Default Proof Using "Type".

(** ** Landmarks *)

Module Landmarks.

Local Open Scope R_scope.

(** One detected keypoint: [{x, y, z, visibility}]. *)
Record Landmark : Type := mkLandmark {
  x : R;
  y : R;
  z : R;
  visibility : R
}.

(** [formatLandmarksForBackend]: a fresh object per landmark holding the four
    fields, in the order of the input array. *)
Definition formatLandmarksForBackend (landmarks : list Landmark) : list Landmark :=
  List.map (fun landmark =>
              {| x := x landmark;
                 y := y landmark;
                 z := z landmark;
                 visibility := visibility landmark |}) landmarks.

(** The same point with another depth coordinate. *)
Definition with_z (p : Landmark) (z' : R) : Landmark :=
  {| x := x p; y := y p; z := z'; visibility := visibility p |}.

(** Two points coincide in the image plane. *)
Definition coincide (p q : Landmark) : Prop := x p = x q /\ y p = y q.

(** The vertex at the origin, and a point straight along the y axis. *)
Definition origin : Landmark := {| x := 0; y := 0; z := 0; visibility := 1 |}.
Definition along_y : Landmark := {| x := 0; y := 1; z := 0; visibility := 1 |}.

End Landmarks.

(** ** Geometry helpers (drawingUtils.js) *)

Module Geometry.

Import Landmarks.
Local Open Scope R_scope.

(** [Math.atan2 (y, x)] on the reals: the argument of the vector [(x, y)] in
    [(-PI, PI]], and [0] for the zero vector (as [Math.atan2 (0, 0)]). *)
Definition atan2 (y x : R) : R :=
  if Rlt_dec 0 x then atan (y / x)
  else if Rlt_dec x 0 then
         if Rle_dec 0 y then atan (y / x) + PI else atan (y / x) - PI
  else if Rlt_dec 0 y then PI / 2
  else if Rlt_dec y 0 then - (PI / 2)
  else 0.

(** [calculateAngle (a, b, c)]:
<<
  const radians = Math.atan2(c.y - b.y, c.x - b.x) -
                  Math.atan2(a.y - b.y, a.x - b.x);
  let angle = Math.abs(radians * 180.0 / Math.PI);
  if (angle > 180.0) { angle = 360 - angle; }
  return angle;
>> *)
Definition calculateAngle (a b c : Landmark) : R :=
  let radians := atan2 (y c - y b) (x c - x b) - atan2 (y a - y b) (x a - x b) in
  let angle := Rabs (radians * 180 / PI) in
  if Rlt_dec 180 angle then 360 - angle else angle.

(** [calculateDistance (a, b)]:
    [Math.sqrt(Math.pow(a.x - b.x, 2) + Math.pow(a.y - b.y, 2))]. *)
Definition calculateDistance (a b : Landmark) : R :=
  sqrt ((x a - x b) ^ 2 + (y a - y b) ^ 2).

(** The unsigned direction, in degrees, of the ray from [b] to [p], measured
    from the positive x axis. *)
Definition direction_degrees (b p : Landmark) : R :=
  Rabs (atan2 (y p - y b) (x p - x b)) * 180 / PI.

End Geometry.

(** ** The angle helper with the sign of zero (drawingUtils.js) *)

Module SignedGeometry.

Local Open Scope R_scope.

(** A finite JavaScript number as far as the angle helper can tell numbers
    apart: its real value and, when the value is zero, its sign bit.  IEEE 754
    has a zero of either sign; [===] takes them for equal, [Math.atan2] does
    not.  The sign bit of a number that is not zero is not looked at, and
    rounding is not modelled. *)
Record num : Type := {
  value : R;
  sign_bit : bool
}.

Definition is_zero (n : num) : bool :=
  if Req_dec_T (value n) 0 then true else false.

(** The number is [-0]. *)
Definition negative_zero (n : num) : bool := sign_bit n && is_zero n.

(** [a - b]: a difference that is zero is [+0], except that [-0 - +0] is
    [-0]. *)
Definition sub (a b : num) : num :=
  {| value := value a - value b;
     sign_bit := negative_zero a && negb (sign_bit b) && is_zero b |}.

(** A landmark as MediaPipe gives it. *)
Record Landmark : Type := {
  x : num;
  y : num;
  z : num;
  visibility : num
}.

(** The number is below zero or is [-0]. *)
Definition below_zero (n : num) : bool :=
  if Rlt_dec (value n) 0 then true else negative_zero n.

(** [Math.atan2 (y, x)] with its cases for the zeros: for [y] zero and [x]
    positive or [+0] the result is a zero; for [y] zero and [x] negative or
    [-0] it is [PI] when [y] is [+0] and [- PI] when [y] is [-0].  The sign
    of a zero result is left out: the caller subtracts two results, takes the
    absolute value of a multiple of the difference and compares it, none of
    which tells the zeros apart. *)
Definition atan2 (y x : num) : R :=
  if Rlt_dec 0 (value x) then atan (value y / value x)
  else if Rlt_dec (value x) 0 then
         if below_zero y then atan (value y / value x) - PI
         else atan (value y / value x) + PI
  else if Rlt_dec 0 (value y) then PI / 2
  else if Rlt_dec (value y) 0 then - (PI / 2)
  else if sign_bit x then (if sign_bit y then - PI else PI)
  else 0.

(** [calculateAngle (a, b, c)]:
<<
  const radians = Math.atan2(c.y - b.y, c.x - b.x) -
                  Math.atan2(a.y - b.y, a.x - b.x);
  let angle = Math.abs(radians * 180.0 / Math.PI);
  if (angle > 180.0) { angle = 360 - angle; }
  return angle;
>> *)
Definition calculateAngle (a b c : Landmark) : R :=
  let radians :=
    atan2 (sub (y c) (y b)) (sub (x c) (x b))
    - atan2 (sub (y a) (y b)) (sub (x a) (x b)) in
  let angle := Rabs (radians * 180 / PI) in
  if Rlt_dec 180 angle then 360 - angle else angle.

(** The unsigned direction, in degrees, of the ray from [b] to [p], measured
    from the positive x axis. *)
Definition direction_degrees (b p : Landmark) : R :=
  Rabs (atan2 (sub (y p) (y b)) (sub (x p) (x b))) * 180 / PI.

(** [p.x === q.x && p.y === q.y]: the two points coincide in the image plane;
    the two zeros are equal. *)
Definition coincide (p q : Landmark) : Prop :=
  value (x p) = value (x q) /\ value (y p) = value (y q).

(** A real number as a JavaScript number; zero is taken as [+0]. *)
Definition of_real (r : R) : num := {| value := r; sign_bit := false |}.

(** A landmark of real coordinates. *)
Definition plain (p : Landmarks.Landmark) : Landmark :=
  {| x := of_real (Landmarks.x p);
     y := of_real (Landmarks.y p);
     z := of_real (Landmarks.z p);
     visibility := of_real (Landmarks.visibility p) |}.

(** The vertex at the origin, a point straight along the y axis, a point
    straight along the x axis, and the origin with [-0] for its x. *)
Definition origin : Landmark := plain Landmarks.origin.

Definition along_y : Landmark := plain Landmarks.along_y.

Definition along_x : Landmark :=
  {| x := of_real 1; y := of_real 0; z := of_real 0; visibility := of_real 1 |}.

Definition origin_negative_x : Landmark :=
  {| x := {| value := 0; sign_bit := true |};
     y := of_real 0;
     z := of_real 0;
     visibility := of_real 1 |}.

End SignedGeometry.

(** ** Landmark capture (MediaPipeProcessor.jsx) *)

Module Capture.

Import Landmarks.
Local Open Scope string_scope.

(** What MediaPipe hands to the callback; [poseLandmarks] is undefined when no
    pose was found in the frame. *)
Record Results : Type := { poseLandmarks : option (list Landmark) }.

(** The part of the component state the handler writes. *)
Record ProcessorState : Type := {
  detectionStatus : string;
  isProcessing : bool
}.

(** The surroundings of one call: the wall clock that [Date.now ()] reads, in
    milliseconds since the epoch, and whether the parent passed an [onResults]
    callback. *)
Record Env : Type := {
  now : Z;
  onResults : bool
}.

(** The object handed to [onResults]. *)
Record Payload : Type := {
  landmarks : list Landmark;
  timestamp : Z
}.

(** [handleMediaPipeResults (results)].  Drawing on the canvas does not touch
    the state below and is left out.
<<
  if (results.poseLandmarks && results.poseLandmarks.length > 0) {
    setDetectionStatus('✅ Pose détectée');
    setIsProcessing(false);
    if (onResults) {
      const formattedLandmarks = formatLandmarksForBackend(results.poseLandmarks);
      onResults({ landmarks: formattedLandmarks, timestamp: Date.now() });
    }
  } else {
    setDetectionStatus('⚠️ Aucune pose détectée');
  }
>> *)
Definition handleMediaPipeResults (env : Env) (st : ProcessorState)
    (results : Results) : ProcessorState * option Payload :=
  let none_detected :=
    ({| detectionStatus := "⚠️ Aucune pose détectée";
        isProcessing := isProcessing st |}, None) in
  match poseLandmarks results with
  | Some detected =>
      if (0 <? List.length detected)%nat then
        ({| detectionStatus := "✅ Pose détectée"; isProcessing := false |},
         if onResults env
         then Some {| landmarks := formatLandmarksForBackend detected;
                      timestamp := now env |}
         else None)
      else none_detected
  | None => none_detected
  end.

(** A detection of one landmark, a component that is processing, and the
    surroundings of a call made when the clock reads [reading]. *)
Definition one_landmark : Results := {| poseLandmarks := Some [origin] |}.

Definition processing : ProcessorState :=
  {| detectionStatus := "Analyse de l'image..."; isProcessing := true |}.

Definition at_clock (reading : Z) : Env := {| now := reading; onResults := true |}.

End Capture.

(** ** Display layer (ResultsPanel.jsx, RadarChart.jsx) *)

Module Display.

Local Open Scope string_scope.

(** *** JavaScript values seen by the display layer *)

(** A number: NaN or a finite value. *)
Inductive jsnum : Type :=
| NaN
| Fin (q : Q).

(** A score field as parsed from the JSON response. *)
Inductive scalar : Type :=
| Undefined
| Null
| Number (n : jsnum).

(** What a JSX expression evaluates to before React prints it: a string, a
    number, or a member inherited from [Object.prototype] (see [table_or]). *)
Inductive jsx_child : Type :=
| Text (s : string)
| Num (n : jsnum)
| ProtoMember (key : string).

(** [ToNumber]: [undefined] is NaN, [null] is 0. *)
Definition ToNumber (v : scalar) : jsnum :=
  match v with
  | Undefined => NaN
  | Null => Fin 0
  | Number n => n
  end.

(** The global [isNaN (v)], which converts its argument to a number first. *)
Definition isNaN (v : scalar) : bool :=
  match ToNumber v with
  | NaN => true
  | Fin _ => false
  end.

(** Truthiness: [undefined], [null], NaN and 0 are falsy. *)
Definition truthy (v : scalar) : bool :=
  match v with
  | Number (Fin q) => negb (Qeq_bool q 0)
  | _ => false
  end.

(** [v || 0]. *)
Definition or_zero (v : scalar) : jsnum :=
  if truthy v then ToNumber v else Fin 0.

(** [Math.round]: the nearest integer, halves going up. *)
Definition Math_round (n : jsnum) : jsnum :=
  match n with
  | NaN => NaN
  | Fin q => Fin (inject_Z (Qfloor (q + (1 # 2))))
  end.

(** Product and quotient of a number with a non-zero constant. *)
Definition times (n : jsnum) (k : Q) : jsnum :=
  match n with
  | NaN => NaN
  | Fin q => Fin (q * k)
  end.

Definition over (n : jsnum) (k : Q) : jsnum :=
  match n with
  | NaN => NaN
  | Fin q => Fin (q / k)
  end.

(** [n >= k]; a comparison with NaN is false. *)
Definition at_least (n : jsnum) (k : Q) : bool :=
  match n with
  | NaN => false
  | Fin q => Qle_bool k q
  end.

(** A number that is zero. *)
Definition is_zero (n : jsnum) : Prop :=
  match n with
  | NaN => False
  | Fin q => q == 0
  end.



(** *** Lookup tables *)

(** Names every object literal inherits from [Object.prototype]; [table[key]]
    finds them when [key] is not an own property. *)
Definition object_prototype_keys : list string :=
  [ "constructor"; "hasOwnProperty"; "isPrototypeOf"; "propertyIsEnumerable";
    "toLocaleString"; "toString"; "valueOf"; "__proto__";
    "__defineGetter__"; "__defineSetter__"; "__lookupGetter__";
    "__lookupSetter__" ].

(** [table[key] || fallback] for a literal [table] of strings: an own entry
    wins unless it is the empty string, an inherited member is truthy and is
    returned as it is, anything else gives [fallback]. *)
Definition table_or (table : gmap string string) (key fallback : string) : jsx_child :=
  match table !! key with
  | Some label => if String.eqb label "" then Text fallback else Text label
  | None =>
      if existsb (String.eqb key) object_prototype_keys
      then ProtoMember key
      else Text fallback
  end.

(** The table has an entry of its own for [key]. *)
Definition dedicated (table : gmap string string) (key : string) : bool :=
  match table !! key with
  | Some _ => true
  | None => false
  end.

(** *** Helpers of ResultsPanel.jsx *)

(** [getScoreColor (score)]. *)
Definition getScoreColor (score : jsnum) : string :=
  if at_least score 85 then "#22c55e"
  else if at_least score 70 then "#3b82f6"
  else if at_least score 50 then "#f59e0b"
  else "#ef4444".

(** [s.includes (needle)]. *)
Fixpoint includes (s needle : string) : bool :=
  String.prefix needle s
  || match s with
     | EmptyString => false
     | String _ rest => includes rest needle
     end.

(** [getFeedbackClass (feedback)]:
<<
  if (feedback.includes('✓✓') || feedback.includes('🏆')) return 'feedback-excellent';
  if (feedback.includes('✓')) return 'feedback-good';
  if (feedback.includes('⚠️')) return 'feedback-warning';
  if (feedback.includes('💡') || feedback.includes('💪')) return 'feedback-tip';
  return 'feedback-neutral';
>> *)
Definition getFeedbackClass (feedback : string) : string :=
  if includes feedback "✓✓" || includes feedback "🏆" then "feedback-excellent"
  else if includes feedback "✓" then "feedback-good"
  else if includes feedback "⚠️" then "feedback-warning"
  else if includes feedback "💡" || includes feedback "💪" then "feedback-tip"
  else "feedback-neutral".



(** The table of [getSkillLevelLabel]. *)
Definition labels : gmap string string :=
  list_to_map
    [ ("beginner", "Débutant");
      ("intermediate", "Intermédiaire");
      ("advanced", "Avancé") ].

(** [getSkillLevelLabel (level)]: [labels[level] || level]. *)
Definition getSkillLevelLabel (level : string) : jsx_child :=
  table_or labels level level.

(** ASCII upper case, and the word characters of a regular expression. *)
Definition upper (c : ascii) : ascii :=
  let n := nat_of_ascii c in
  if ((97 <=? n) && (n <=? 122))%nat then ascii_of_nat (n - 32) else c.

Definition is_word_char (c : ascii) : bool :=
  let n := nat_of_ascii c in
  (((48 <=? n) && (n <=? 57)) || ((65 <=? n) && (n <=? 90))
   || ((97 <=? n) && (n <=? 122)) || (n =? 95))%nat.

(** [s.replace (/_/g, ' ')]. *)
Fixpoint underscores_to_spaces (s : string) : string :=
  match s with
  | EmptyString => EmptyString
  | String c rest =>
      String (if Ascii.eqb c "_" then " "%char else c) (underscores_to_spaces rest)
  end.

(** [s.replace (/\b\w/g, char => char.toUpperCase ())]: the first character of
    every run of word characters goes to upper case. *)
Fixpoint capitalize_words (inside_word : bool) (s : string) : string :=
  match s with
  | EmptyString => EmptyString
  | String c rest =>
      String (if is_word_char c && negb inside_word then upper c else c)
             (capitalize_words (is_word_char c) rest)
  end.

(** The [nameMap] of [formatIndicatorName] in ResultsPanel.jsx. *)
Definition panel_nameMap : gmap string string :=
  list_to_map
    [ ("alignment", "Alignement");
      ("balance", "Équilibre");
      ("hip_height", "Hauteur Hanches");
      ("leg_straightness", "Jambes Droites");
      ("shoulder_alignment", "Épaules Alignées");
      ("arm_position", "Position Bras");
      ("back_straightness", "Dos Droit");
      ("symmetry", "Symétrie");
      ("core_strength", "Force Core");
      ("shoulder_position", "Position Épaules");
      ("knee_flexion", "Flexion Genoux");
      ("front_knee_angle", "Angle Genou Avant");
      ("arm_alignment", "Alignement Bras");
      ("hip_opening", "Ouverture Hanches");
      ("knee_alignment", "Alignement Genoux");
      ("arm_height", "Hauteur Bras") ].

(** [formatIndicatorName (key)] of ResultsPanel.jsx. *)
Definition formatIndicatorName (key : string) : jsx_child :=
  table_or panel_nameMap key (capitalize_words false (underscores_to_spaces key)).

(** *** RadarChart.jsx *)

(** [s.split ('_')]. *)
Fixpoint split_underscore (s : string) : list string :=
  match s with
  | EmptyString => [EmptyString]
  | String c rest =>
      if Ascii.eqb c "_" then EmptyString :: split_underscore rest
      else match split_underscore rest with
           | word :: words => String c word :: words
           | [] => [String c EmptyString]
           end
  end.

(** [word.charAt (0).toUpperCase () + word.slice (1)]; upper case is taken on
    ASCII letters, the alphabet of the indicator keys. *)
Definition upper_first (word : string) : string :=
  match word with
  | EmptyString => EmptyString
  | String c rest => String (upper c) rest
  end.

(** The [nameMap] of RadarChart.jsx: the same entries and two more. *)
Definition chart_nameMap : gmap string string :=
  <["foot_height" := "Hauteur Pied"]>
    (<["shoulder_level" := "Niveau Épaules"]> panel_nameMap).

(** [formatIndicatorName (key)] of RadarChart.jsx. *)
Definition chart_formatIndicatorName (key : string) : jsx_child :=
  table_or chart_nameMap key
    (String.concat " " (List.map upper_first (split_underscore key))).

(** One row of the chart data. *)
Record Row : Type := {
  indicator : jsx_child;
  row_score : jsnum;
  fullMark : Z
}.

(** The score of a row: [isNaN(value) ? 0 : Math.round(value * 10) / 10]. *)
Definition chart_score (value : scalar) : jsnum :=
  if isNaN value then Fin 0
  else over (Math_round (times (ToNumber value) 10)) 10.

(** [Object.entries(indicators).map(([key, value]) => ({...}))]. *)
Definition chart_data (indicators : list (string * scalar)) : list Row :=
  List.map (fun entry =>
              {| indicator := chart_formatIndicatorName (fst entry);
                 row_score := chart_score (snd entry);
                 fullMark := 100 |}) indicators.

(** What the chart shows: the empty notice, or the plot with its colour, the
    optional global score of the header and the data rows. *)
Inductive Chart : Type :=
| ChartEmpty
| ChartPlot (chartColor : string) (header : option jsx_child) (data : list Row).

(** The header score: shown when [globalScore !== undefined], as
    [isNaN(globalScore) ? '0' : Math.round(globalScore)]. *)
Definition chart_header (globalScore : scalar) : option jsx_child :=
  match globalScore with
  | Undefined => None
  | _ => Some (if isNaN globalScore then Text "0"
               else Num (Math_round (ToNumber globalScore)))
  end.

(** The component [RadarChart ({ indicators, globalScore })]. *)
Definition RadarChart (indicators : option (list (string * scalar)))
    (globalScore : scalar) : Chart :=
  match indicators with
  | None => ChartEmpty
  | Some [] => ChartEmpty
  | Some entries =>
      ChartPlot (getScoreColor (or_zero globalScore))
                (chart_header globalScore)
                (chart_data entries)
  end.

(** *** The quality section of ResultsPanel.jsx *)

(** The [priority_indicator] and [recommended_exercise] objects of a
    response. *)
Record PriorityIndicator : Type := {
  name : string;
  score : scalar;
  improvement_needed : string
}.

Record Exercise : Type := {
  title : string;
  description : string;
  duration : string;
  difficulty : string
}.

(** The [quality_analysis] object of a response.  A field that is absent (or
    [null]) is [None]; an object, even an empty one, is [Some]. *)
Record QualityAnalysis : Type := {
  indicators : option (list (string * scalar));
  global_score : scalar;
  skill_level : option string;
  feedback : option (list string);
  priority_indicator : option PriorityIndicator;
  recommended_exercise : option Exercise
}.

(** What the section shows: the score circle, the skill-level card, the radar
    chart, the priority card, the feedback items with their class, and the
    recommendation card. *)
Record ScoreCircle : Type := {
  stroke : string;
  dash : jsnum;
  score_number : jsx_child
}.

Record PriorityCard : Type := {
  priority_name : jsx_child;
  priority_score : jsx_child;
  priority_level : string
}.

Record QualitySection : Type := {
  circle : ScoreCircle;
  skill_card : option jsx_child;
  radar : option Chart;
  priority_card : option PriorityCard;
  feedback_list : list (string * string);
  recommendation : option Exercise
}.

Inductive QualityView : Type :=
| QualityUnavailable
| QualityShown (section : QualitySection).

(** The number in the score circle:
<<
  isNaN(global_score) || global_score === undefined || global_score === null
    ? '0' : Math.round(global_score)
>> *)
Definition score_number_of (global_score : scalar) : jsx_child :=
  if isNaN global_score
     || match global_score with Undefined => true | _ => false end
     || match global_score with Null => true | _ => false end
  then Text "0"
  else Num (Math_round (ToNumber global_score)).

(** The score of the priority card:
    [isNaN(priority_indicator.score) ? '0' : Math.round(priority_indicator.score)]. *)
Definition priority_score_of (score : scalar) : jsx_child :=
  if isNaN score then Text "0" else Num (Math_round (ToNumber score)).

(** [renderQualityAnalysis ()] for the [quality_analysis] of the results. *)
Definition renderQualityAnalysis (quality_analysis : option QualityAnalysis) : QualityView :=
  match quality_analysis with
  | None => QualityUnavailable
  | Some qa =>
      match indicators qa with
      | None => QualityUnavailable
      | Some entries =>
          QualityShown
            {| circle :=
                 {| stroke := getScoreColor (or_zero (global_score qa));
                    dash := times (over (or_zero (global_score qa)) 100) 283;
                    score_number := score_number_of (global_score qa) |};
               skill_card :=
                 match skill_level qa with
                 | Some level =>
                     if String.eqb level "" then None
                     else Some (getSkillLevelLabel level)
                 | None => None
                 end;
               radar := Some (RadarChart (Some entries) (global_score qa));
               priority_card :=
                 match priority_indicator qa with
                 | Some p =>
                     Some {| priority_name := formatIndicatorName (name p);
                             priority_score := priority_score_of (score p);
                             priority_level := improvement_needed p |}
                 | None => None
                 end;
               feedback_list :=
                 match feedback qa with
                 | Some items => List.map (fun item => (getFeedbackClass item, item)) items
                 | None => []
                 end;
               recommendation := recommended_exercise qa |}
      end
  end.

(** *** Vocabulary of the properties *)




End Display.

(** ** Aggregation and gating of the quality analysis engine *)

Module Engine.

Import Landmarks.
Local Open Scope string_scope.
Local Open Scope Q_scope.

(** Modelled from the spec: the five supported postures (the scoring module
    yoga_quality_analyzer.py is not among the sources; section 6 gives the
    vocabulary [{downdog, plank, tree, warrior2, goddess}]). *)
Inductive Pose : Type :=
| Downdog
| Plank
| Tree
| Warrior2
| Goddess.

(** Modelled from the spec: the pose named by an identifier, if supported
    (the dispatch of the absent scoring module, section 4.4). *)
Definition parse_pose (poseName : string) : option Pose :=
  if String.eqb poseName "downdog" then Some Downdog
  else if String.eqb poseName "plank" then Some Plank
  else if String.eqb poseName "tree" then Some Tree
  else if String.eqb poseName "warrior2" then Some Warrior2
  else if String.eqb poseName "goddess" then Some Goddess
  else None.

(** Modelled from the spec: the four skill levels of a report (section 3; the
    function deriving them is in the absent scoring module). *)
Inductive SkillLevel : Type :=
| Beginner
| Intermediate
| Advanced
| Expert.

(** Modelled from the spec: the string a skill level has in the serialized
    report, "one of the four fixed strings" of section 6 (the serializer is in
    the absent API layer). *)
Definition skill_level_name (level : SkillLevel) : string :=
  match level with
  | Beginner => "beginner"
  | Intermediate => "intermediate"
  | Advanced => "advanced"
  | Expert => "expert"
  end.

(** Modelled from the spec: an IndicatorSet, an ordered mapping from indicator
    name to score (section 3; built by the absent posture analyzers). *)
Definition IndicatorSet : Type := list (string * Q).

(** Modelled from the spec: the scores of an IndicatorSet, in declaration
    order, and the sum of a list of scores (parts of the absent aggregator). *)
Definition scores (indicators : IndicatorSet) : list Q := List.map snd indicators.

Definition total (values : list Q) : Q := fold_right Qplus 0 values.

(** Modelled from the spec: the arithmetic mean of a non-empty list of scores
    (the aggregator of the absent scoring module, section 4.3). *)
Definition mean (values : list Q) : option Q :=
  match values with
  | [] => None
  | _ => Some (total values / inject_Z (Z.of_nat (List.length values)))
  end.

(** Modelled from the spec: the nearest integer, a tie going to the even
    neighbour as Python's [round] does (the absent scoring module is Python). *)
Definition round_half_even (q : Q) : Z :=
  let low := Qfloor q in
  match Qcompare (q - inject_Z low) (1 # 2) with
  | Lt => low
  | Gt => (low + 1)%Z
  | Eq => if Z.even low then low else (low + 1)%Z
  end.

(** Modelled from the spec: [round (q, 1)], rounding to one decimal place
    (section 4.3; absent scoring module). *)
Definition round1 (q : Q) : Q := inject_Z (round_half_even (q * 10)) / 10.

(** Modelled from the spec: the global score, "arithmetic mean of all
    indicator scores in the IndicatorSet, rounded to one decimal place"
    ([calculate_global_score] of the absent scoring module). *)
Definition calculate_global_score (indicators : IndicatorSet) : option Q :=
  option_map round1 (mean (scores indicators)).

(** Modelled from the spec: a scan keeping the lowest entry met so far; a later
    entry replaces it only when strictly lower, so that the first-declared of
    several lowest entries is kept (section 4.3; absent scoring module). *)
Fixpoint lowest (best : string * Q) (rest : IndicatorSet) : string * Q :=
  match rest with
  | [] => best
  | entry :: rest' =>
      if Qlt_le_dec (snd entry) (snd best) then lowest entry rest'
      else lowest best rest'
  end.

(** Entries all strictly above, and entries all at or above, a score. *)
Definition above (bound : Q) (entries : IndicatorSet) : Prop :=
  Forall (fun entry => bound < snd entry) entries.

Definition not_below (bound : Q) (entries : IndicatorSet) : Prop :=
  Forall (fun entry => bound <= snd entry) entries.

(** Modelled from the spec: the priority indicator of a report,
    [{name, score, improvement_needed}] (section 3; absent scoring module). *)
Record PriorityIndicator : Type := {
  name : string;
  score : Q;
  improvement_needed : string
}.

(** Modelled from the spec: what the report builder takes from the absent
    per-posture code and tables: the five posture analyzers, the skill-level
    bands and the improvement bands (sections 4.2 and 4.3; the cut-offs are
    left open by section 9). *)
Class Analyzers : Type := {
  analyze : Pose -> list Landmark -> IndicatorSet * list string;
  determine_skill_level : Q -> SkillLevel;
  improvement_band : Q -> string
}.

(** Modelled from the spec: the priority indicator, "the indicator with the
    strictly lowest score; ties broken by the indicator's declaration order"
    ([identify_priority_indicator] of the absent scoring module). *)
Definition identify_priority_indicator `{Analyzers} (indicators : IndicatorSet)
    : option PriorityIndicator :=
  match indicators with
  | [] => None
  | first :: rest =>
      let found := lowest first rest in
      Some {| name := fst found;
              score := snd found;
              improvement_needed := improvement_band (snd found) |}
  end.

(** Modelled from the spec: the QualityReport of section 3 (built by the
    absent scoring module). *)
Record QualityReport : Type := {
  pose : Pose;
  indicators : IndicatorSet;
  feedback : list string;
  global_score : Q;
  skill_level : SkillLevel;
  priority_indicator : PriorityIndicator
}.

(** Modelled from the spec: the two report states of section 4.4, the
    "unavailable" report (no indicators, no global score) and the full one. *)
Inductive Report : Type :=
| Unavailable
| Full (report : QualityReport).

(** Modelled from the spec: the hard failures of section 7. *)
Inductive Failure : Type :=
| InputShapeError (count : nat)
| UnknownPostureError (poseName : string)
| EmptyIndicatorSetError (pose : Pose).

(** Modelled from the spec: the gating threshold, "0.70 in the current
    design" (the threshold lives in the absent scoring module; README.md and
    the notice of ResultsPanel.jsx name the same 70%). *)
Definition gating_threshold : Q := 7 # 10.

(** Modelled from the spec: [analyzeQuality (landmarks, poseName,
    classificationConfidence)] of section 6 (the report builder of the absent
    scoring module): a frame that does not hold 33 landmarks fails fast; below
    the gating threshold the report is the unavailable one; otherwise the
    analyzer of the named posture runs and the aggregator completes the
    report. *)
Definition analyzeQuality `{Analyzers} (landmarks : list Landmark)
    (poseName : string) (classificationConfidence : Q) : Failure + Report :=
  if negb (List.length landmarks =? 33)%nat
  then inl (InputShapeError (List.length landmarks))
  else if Qlt_le_dec classificationConfidence gating_threshold
  then inr Unavailable
  else
    match parse_pose poseName with
    | None => inl (UnknownPostureError poseName)
    | Some p =>
        let (found, messages) := analyze p landmarks in
        match calculate_global_score found, identify_priority_indicator found with
        | Some global, Some priority =>
            inr (Full {| pose := p;
                         indicators := found;
                         feedback := messages;
                         global_score := global;
                         skill_level := determine_skill_level global;
                         priority_indicator := priority |})
        | _, _ => inl (EmptyIndicatorSetError p)
        end
    end.

(** Modelled from the spec: the flat structure of section 6 in which a report
    reaches the display layer (the serializer is in the absent API layer); the
    unavailable report carries no indicators and no global score. *)
Definition to_wire (report : Report) : Display.QualityAnalysis :=
  match report with
  | Unavailable =>
      {| Display.indicators := None;
         Display.global_score := Display.Undefined;
         Display.skill_level := None;
         Display.feedback := None;
         Display.priority_indicator := None;
         Display.recommended_exercise := None |}
  | Full r =>
      {| Display.indicators :=
           Some (List.map (fun entry =>
                             (fst entry, Display.Number (Display.Fin (snd entry))))
                          (indicators r));
         Display.global_score := Display.Number (Display.Fin (global_score r));
         Display.skill_level := Some (skill_level_name (skill_level r));
         Display.feedback := Some (feedback r);
         Display.priority_indicator :=
           Some {| Display.name := name (priority_indicator r);
                   Display.score :=
                     Display.Number (Display.Fin (score (priority_indicator r)));
                   Display.improvement_needed :=
                     improvement_needed (priority_indicator r) |};
         Display.recommended_exercise := None |}
  end.

End Engine.

(** ** The documented analysis response (IMPLEMENTATION_SUMMARY.md) *)

Module Documented.

Import Engine.
Local Open Scope string_scope.
Local Open Scope Q_scope.

(** The [indicators] of the example response, in the order they are listed. *)
Definition indicators : IndicatorSet :=
  [ ("alignment", 923 # 10);
    ("core_strength", 100);
    ("symmetry", 875 # 10);
    ("shoulder_position", 852 # 10) ].

(** Its [skill_level]. *)
Definition skill_level : SkillLevel := Advanced.

(** Its [feedback]. *)
Definition feedback : list string :=
  [ "✓✓ Alignement parfait ! Corps bien droit.";
    "✓✓ Planche complète ! Excellente force du core.";
    "✓ Répartissez le poids équitablement." ].

(** Its [priority_indicator]. *)
Definition priority_indicator : PriorityIndicator :=
  {| name := "shoulder_position";
     score := 852 # 10;
     improvement_needed := "modéré" |}.

(** Posture analyzers and bands that answer as the example response does, for
    every frame. *)
#[local] Instance analyzers : Analyzers :=
  {| analyze := fun _ _ => (indicators, feedback);
     determine_skill_level := fun _ => skill_level;
     improvement_band := fun _ => "modéré" |}.

(** A frame of the required length. *)
Definition frame : list Landmarks.Landmark :=
  List.repeat Landmarks.origin 33.

End Documented.

(** ** The score box drawn on the canvas (drawingUtils.js) *)

Module Canvas.

Import Display.
Local Open Scope string_scope.
Local Open Scope Z_scope.






End Canvas.

(** ** The difficulty badge (ExerciseRecommendation.jsx) *)

Module Difficulty.

Import Display.
Local Open Scope string_scope.

(** The table of [getDifficultyColor]. *)
Definition colors : gmap string string :=
  list_to_map
    [ ("beginner", "#22c55e");
      ("intermediate", "#3b82f6");
      ("advanced", "#ef4444") ].

(** [getDifficultyColor (difficulty)]: [colors[difficulty] || '#6b7280']. *)
Definition getDifficultyColor (difficulty : string) : jsx_child :=
  table_or colors difficulty "#6b7280".

(** The table of [getDifficultyLabel]. *)
Definition difficulty_labels : gmap string string :=
  list_to_map
    [ ("beginner", "Débutant");
      ("intermediate", "Intermédiaire");
      ("advanced", "Avancé") ].

(** [getDifficultyLabel (difficulty)]: [labels[difficulty] || difficulty]. *)
Definition getDifficultyLabel (difficulty : string) : jsx_child :=
  table_or difficulty_labels difficulty difficulty.

End Difficulty.

(** ** Vocabulary of the further display properties *)

Module DisplayTerms.

Import Display.
Local Open Scope string_scope.

(** The rank of the four colours of [getScoreColor], from the lowest band. *)
Definition band (color : string) : nat :=
  if String.eqb color "#22c55e" then 3
  else if String.eqb color "#3b82f6" then 2
  else if String.eqb color "#f59e0b" then 1
  else 0.

(** Every character of the string satisfies the test. *)
Fixpoint every_char (test : ascii -> bool) (s : string) : bool :=
  match s with
  | EmptyString => true
  | String c rest => test c && every_char test rest
  end.

(** A key made of ASCII letters, digits and underscores. *)
Definition word_key (key : string) : bool := every_char is_word_char key.

(** The text a formatter answers with, if it is a text. *)
Definition text_of (child : jsx_child) : option string :=
  match child with
  | Text s => Some s
  | _ => None
  end.

End DisplayTerms.

(** ** The MediaPipe service (mediapipeService.js) *)

Module MediaPipeService.

Local Open Scope string_scope.

(** The calls the service makes on the MediaPipe objects it creates; a pose
    and a camera are known by the number given to them at creation. *)
Inductive Event : Type :=
| PoseCreated (handle : nat)
| OptionsSet (handle : nat)
| ResultsHooked (handle : nat)
| SendCalled (handle : nat)
| PoseClosed (handle : nat)
| CameraCreated (handle : nat)
| StartCalled (handle : nat)
| CameraStopped (handle : nat).

(** The fields of the service object; [None] is [null]. *)
Record Service : Type := {
  pose : option nat;
  camera : option nat;
  onResultsCallback : bool
}.

(** The service with what surrounds it: the number the next created object
    gets, and the calls made so far, the latest first. *)
Record World : Type := {
  service : Service;
  fresh : nat;
  history : list Event
}.

(** How a method ends: it returns, or it throws (an async method rejects). *)
Inductive Outcome : Type :=
| Returned
| Thrown (message : string).

(** The state after [constructor ()]. *)
Definition initial : World :=
  {| service := {| pose := None; camera := None; onResultsCallback := false |};
     fresh := 0;
     history := [] |}.

(** [initialize (onResults)]: keeps the callback, creates a pose, sets its
    options and hooks the results; a pose held before is dropped as it is. *)
Definition initialize (w : World) : World * Outcome :=
  let p := fresh w in
  ({| service := {| pose := Some p;
                    camera := camera (service w);
                    onResultsCallback := true |};
      fresh := S p;
      history := ResultsHooked p :: OptionsSet p :: PoseCreated p :: history w |},
   Returned).

(** [processImage (imageElement)]; [accepted] tells whether [pose.send]
    resolves.
<<
  if (!this.pose) { throw new Error('MediaPipe non initialisé'); }
  await this.pose.send({ image: imageElement });
>> *)
Definition processImage (accepted : bool) (w : World) : World * Outcome :=
  match pose (service w) with
  | None => (w, Thrown "MediaPipe non initialisé")
  | Some p =>
      ({| service := service w;
          fresh := fresh w;
          history := SendCalled p :: history w |},
       if accepted then Returned else Thrown "send")
  end.

(** [startCamera (videoElement, onFrame)]; [started] tells whether
    [camera.start ()] resolves.  The frames the camera then delivers are not
    part of the method.
<<
  if (!this.pose) { throw new Error('MediaPipe non initialisé'); }
  this.camera = new Camera(videoElement, {...});
  await this.camera.start();
>> *)
Definition startCamera (started : bool) (w : World) : World * Outcome :=
  match pose (service w) with
  | None => (w, Thrown "MediaPipe non initialisé")
  | Some _ =>
      let c := fresh w in
      ({| service := {| pose := pose (service w);
                        camera := Some c;
                        onResultsCallback := onResultsCallback (service w) |};
          fresh := S c;
          history := StartCalled c :: CameraCreated c :: history w |},
       if started then Returned else Thrown "start")
  end.

(** [stopCamera ()]: [if (this.camera) { this.camera.stop(); this.camera = null; }]. *)
Definition stopCamera (w : World) : World * Outcome :=
  match camera (service w) with
  | None => (w, Returned)
  | Some c =>
      ({| service := {| pose := pose (service w);
                        camera := None;
                        onResultsCallback := onResultsCallback (service w) |};
          fresh := fresh w;
          history := CameraStopped c :: history w |},
       Returned)
  end.

(** [cleanup ()]: [this.stopCamera(); if (this.pose) { this.pose.close(); this.pose = null; }]. *)
Definition cleanup (w : World) : World * Outcome :=
  let w1 := fst (stopCamera w) in
  match pose (service w1) with
  | None => (w1, Returned)
  | Some p =>
      ({| service := {| pose := None;
                        camera := camera (service w1);
                        onResultsCallback := onResultsCallback (service w1) |};
          fresh := fresh w1;
          history := PoseClosed p :: history w1 |},
       Returned)
  end.

(** The methods a component can call. *)
Inductive Call : Type :=
| Initialize
| ProcessImage (accepted : bool)
| StartCamera (started : bool)
| StopCamera
| Cleanup.

Definition step (call : Call) (w : World) : World * Outcome :=
  match call with
  | Initialize => initialize w
  | ProcessImage accepted => processImage accepted w
  | StartCamera started => startCamera started w
  | StopCamera => stopCamera w
  | Cleanup => cleanup w
  end.

(** The world after the calls, made in the order of the list. *)
Definition run (calls : list Call) (w : World) : World :=
  fold_left (fun current call => fst (step call current)) calls w.

(** The object an event is about. *)
Definition handle_of (e : Event) : nat :=
  match e with
  | PoseCreated h | OptionsSet h | ResultsHooked h | SendCalled h | PoseClosed h
  | CameraCreated h | StartCalled h | CameraStopped h => h
  end.

(** A history in which every call is made on an object created before and
    not yet released, no object is created twice, and no object is released
    twice. *)
Fixpoint sound (events : list Event) : Prop :=
  match events with
  | [] => True
  | e :: earlier =>
      sound earlier
      /\ match e with
         | PoseCreated p => ~ In (PoseCreated p) earlier
         | CameraCreated c => ~ In (CameraCreated c) earlier
         | OptionsSet p | ResultsHooked p | SendCalled p | PoseClosed p =>
             In (PoseCreated p) earlier /\ ~ In (PoseClosed p) earlier
         | StartCalled c | CameraStopped c =>
             In (CameraCreated c) earlier /\ ~ In (CameraStopped c) earlier
         end
  end.

(** What the service holds is alive: created, not released, with every number
    in the history below the next fresh one. *)
Definition alive (w : World) : Prop :=
  Forall (fun e => handle_of e < fresh w) (history w)
  /\ (forall p, pose (service w) = Some p ->
        In (PoseCreated p) (history w) /\ ~ In (PoseClosed p) (history w))
  /\ (forall c, camera (service w) = Some c ->
        In (CameraCreated c) (history w) /\ ~ In (CameraStopped c) (history w)).

(** A pose created before that the service does not hold and that was not
    closed. *)
Definition dropped (p : nat) (w : World) : Prop :=
  pose (service w) <> Some p /\ p < fresh w /\ ~ In (PoseClosed p) (history w).

End MediaPipeService.

(** ** The API client and its tokens (apiService.js, App.jsx) *)

Module Api.

Import Landmarks.
Local Open Scope string_scope.
Local Open Scope Z_scope.

(** A string field of a JSON answer: missing, [null], or a string. *)
Inductive Field : Type :=
| Missing
| NullField
| Str (s : string).

(** Truthiness of a field: only a non-empty string is truthy. *)
Definition truthy_field (f : Field) : bool :=
  match f with
  | Str s => negb (String.eqb s "")
  | _ => false
  end.

(** The string JavaScript makes of a field, in a template or in [setItem]. *)
Definition field_text (f : Field) : string :=
  match f with
  | Missing => "undefined"
  | NullField => "null"
  | Str s => s
  end.

(** [localStorage.getItem (key)]; [None] is [null]. *)
Definition getItem (storage : gmap string string) (key : string) : option string :=
  storage !! key.

(** Truthiness of an item: a non-empty string. *)
Definition truthy_item (item : option string) : bool :=
  match item with
  | Some s => negb (String.eqb s "")
  | None => false
  end.

(** The string JavaScript makes of an item in a template. *)
Definition item_text (item : option string) : string :=
  match item with
  | Some s => s
  | None => "null"
  end.

(** What a request carries besides its address. *)
Inductive Body : Type :=
| NoBody
| Credentials (email password : string)
| Registration (email username password skill_level : string)
| CompleteAnalysis (landmarks : list Landmark) (user_level : option string)
| Classification (landmarks : list Landmark)
| QualityAnalysis (landmarks : list Landmark) (pose_name : Field) (user_level : string).

(** The configuration of a request: its path under the base URL, the
    [Authorization] header if set, and the [_retry] mark. *)
Record Request : Type := {
  path : string;
  authorization : option string;
  retry : bool;
  body : Body
}.

(** The [tokens] object of the answer to a login. *)
Record Tokens : Type := {
  access_token : Field;
  refresh_token : Field
}.

(** The fields of [response.data] the client and the pages read: [success]
    (by its truthiness), [message], [pose], [tokens] ([None] when missing or
    [null]) and [access_token]. *)
Record Data : Type := {
  success : bool;
  message : Field;
  pose : Field;
  tokens : option Tokens;
  data_access_token : Field
}.

(** What comes back: nothing ([error.response] is undefined), or a status
    with data. *)
Inductive Reply : Type :=
| NoReply
| Answer (status : Z) (data : Data).

(** The server: any machine that answers requests. *)
Class Backend : Type := {
  ServerState : Type;
  serve : ServerState -> Request -> ServerState * Reply
}.

(** How a call ends: the promise resolves with the data, or rejects with the
    error of the reply. *)
Inductive Result : Type :=
| Resolved (data : Data)
| Rejected (reply : Reply).

(** axios resolves a reply whose status is within 200 and 299. *)
Definition accepted (reply : Reply) : option Data :=
  match reply with
  | Answer status data =>
      if (200 <=? status) && (status <? 300) then Some data else None
  | NoReply => None
  end.

(** [error.response?.status === 401]. *)
Definition unauthorized (reply : Reply) : bool :=
  match reply with
  | Answer status _ => status =? 401
  | NoReply => false
  end.

Section Client.

Context `{Backend}.

(** The browser side with the server: [localStorage], the state of the
    server, the address assigned to [window.location.href] if any, and the
    requests sent so far, the latest first. *)
Record Client : Type := {
  storage : gmap string string;
  server : ServerState;
  location : option string;
  sent : list Request
}.

(** Sending a request. *)
Definition transmit (c : Client) (request : Request) : Client * Reply :=
  let (next, reply) := serve (server c) request in
  ({| storage := storage c;
      server := next;
      location := location c;
      sent := request :: sent c |}, reply).

(** The request interceptor:
<<
  const token = localStorage.getItem('access_token');
  if (token) { config.headers.Authorization = `Bearer ${token}`; }
>> *)
Definition request_interceptor (store : gmap string string) (request : Request) : Request :=
  match getItem store "access_token" with
  | Some token =>
      if String.eqb token "" then request
      else {| path := path request;
              authorization := Some ("Bearer " ++ token);
              retry := retry request;
              body := body request |}
  | None => request
  end.

(** A call of [api] on a request whose [_retry] mark is set: the response
    interceptor rejects every error of such a request. *)
Definition api_marked (c : Client) (request : Request) : Client * Result :=
  let (c1, reply) := transmit c (request_interceptor (storage c) request) in
  match accepted reply with
  | Some data => (c1, Resolved data)
  | None => (c1, Rejected reply)
  end.

(** The request of the refresh: [axios.post] on the refresh address with the
    refresh token as bearer, outside the interceptors. *)
Definition refresh_request (refreshToken : string) : Request :=
  {| path := "/auth/refresh";
     authorization := Some ("Bearer " ++ refreshToken);
     retry := false;
     body := NoBody |}.

(** A call of [api]: the request interceptor, the request, and the response
    interceptor.
<<
  const originalRequest = error.config;
  if (error.response?.status === 401 && !originalRequest._retry) {
    originalRequest._retry = true;
    try {
      const refreshToken = localStorage.getItem('refresh_token');
      if (refreshToken) {
        const response = await axios.post(`${API_BASE_URL}/auth/refresh`, {}, {
          headers: { Authorization: `Bearer ${refreshToken}` }
        });
        const { access_token } = response.data;
        localStorage.setItem('access_token', access_token);
        originalRequest.headers.Authorization = `Bearer ${access_token}`;
        return api(originalRequest);
      }
    } catch (refreshError) {
      localStorage.removeItem('access_token');
      localStorage.removeItem('refresh_token');
      window.location.href = '/login';
      return Promise.reject(refreshError);
    }
  }
  return Promise.reject(error);
>> *)
Definition api (c : Client) (request : Request) : Client * Result :=
  let original := request_interceptor (storage c) request in
  let (c1, reply) := transmit c original in
  match accepted reply with
  | Some data => (c1, Resolved data)
  | None =>
      if unauthorized reply && negb (retry original) then
        match getItem (storage c1) "refresh_token" with
        | Some refreshToken =>
            if String.eqb refreshToken "" then (c1, Rejected reply)
            else
              let (c2, refreshed) := transmit c1 (refresh_request refreshToken) in
              match accepted refreshed with
              | Some data =>
                  let token := field_text (data_access_token data) in
                  api_marked
                    {| storage := <["access_token" := token]> (storage c2);
                       server := server c2;
                       location := location c2;
                       sent := sent c2 |}
                    {| path := path original;
                       authorization := Some ("Bearer " ++ token);
                       retry := true;
                       body := body original |}
              | None =>
                  ({| storage :=
                        delete "refresh_token" (delete "access_token" (storage c2));
                      server := server c2;
                      location := Some "/login";
                      sent := sent c2 |}, Rejected refreshed)
              end
        | None => (c1, Rejected reply)
        end
      else (c1, Rejected reply)
  end.

(** The retried request as it is sent after a refresh that gave [token]. *)
Definition retried (store : gmap string string) (original : Request) (token : string)
    : Request :=
  request_interceptor (<["access_token" := token]> store)
    {| path := path original;
       authorization := Some ("Bearer " ++ token);
       retry := true;
       body := body original |}.

(** The client with another storage. *)
Definition with_storage (c : Client) (store : gmap string string) : Client :=
  {| storage := store; server := server c; location := location c; sent := sent c |}.

(** Storing the tokens of a login answer:
<<
  if (response.data.tokens) {
    if (response.data.tokens.access_token) { localStorage.setItem('access_token', ...); }
    if (response.data.tokens.refresh_token) { localStorage.setItem('refresh_token', ...); }
  }
>> *)
Definition store_tokens (store : gmap string string) (data : Data) : gmap string string :=
  match tokens data with
  | None => store
  | Some t =>
      let store1 :=
        if truthy_field (access_token t)
        then <["access_token" := field_text (access_token t)]> store
        else store in
      if truthy_field (refresh_token t)
      then <["refresh_token" := field_text (refresh_token t)]> store1
      else store1
  end.

(** [login (email, password)]: posts the credentials, stores the tokens of
    the answer, and rethrows an error. *)
Definition login (c : Client) (email password : string) : Client * Result :=
  let (c1, result) :=
    api c {| path := "/auth/login";
             authorization := None;
             retry := false;
             body := Credentials email password |} in
  match result with
  | Resolved data => (with_storage c1 (store_tokens (storage c1) data), Resolved data)
  | Rejected reply => (c1, Rejected reply)
  end.

(** [logout ()]: posts, ignores an error, and in every case removes the two
    tokens. *)
Definition logout (c : Client) : Client :=
  let (c1, _) :=
    api c {| path := "/auth/logout";
             authorization := None;
             retry := false;
             body := NoBody |} in
  with_storage c1 (delete "refresh_token" (delete "access_token" (storage c1))).

(** [register (email, username, password, skillLevel)]. *)
Definition register (c : Client) (email username password skillLevel : string)
    : Client * Result :=
  api c {| path := "/auth/register";
           authorization := None;
           retry := false;
           body := Registration email username password skillLevel |}.

(** [refreshToken ()]: the refresh outside the interceptors; a new access
    token is stored when the answer holds one, an error is rethrown. *)
Definition refreshToken (c : Client) : Client * Result :=
  let (c1, reply) :=
    transmit c (refresh_request (item_text (getItem (storage c) "refresh_token"))) in
  match accepted reply with
  | Some data =>
      (if truthy_field (data_access_token data)
       then with_storage c1 (<["access_token" := field_text (data_access_token data)]>
                               (storage c1))
       else c1,
       Resolved data)
  | None => (c1, Rejected reply)
  end.

(** [analyzeComplete (landmarks, userLevel = null)]. *)
Definition analyzeComplete (c : Client) (landmarks : list Landmark)
    (userLevel : option string) : Client * Result :=
  api c {| path := "/complete-analysis";
           authorization := None;
           retry := false;
           body := CompleteAnalysis landmarks userLevel |}.

(** [classifyPose (landmarks)]. *)
Definition classifyPose (c : Client) (landmarks : list Landmark) : Client * Result :=
  api c {| path := "/classify";
           authorization := None;
           retry := false;
           body := Classification landmarks |}.

(** [analyzePoseQuality (landmarks, poseName, userLevel = 'intermediate')]. *)
Definition analyzePoseQuality (c : Client) (landmarks : list Landmark)
    (poseName : Field) (userLevel : string) : Client * Result :=
  api c {| path := "/analyze";
           authorization := None;
           retry := false;
           body := QualityAnalysis landmarks poseName userLevel |}.

(** [isAuthenticated ()]: [!!localStorage.getItem('access_token')]. *)
Definition isAuthenticated (c : Client) : bool :=
  truthy_item (getItem (storage c) "access_token").

(** What a protected route renders. *)
Inductive Rendered : Type :=
| Children
| NavigateTo (address : string).

(** [ProtectedRoute] of App.jsx. *)
Definition ProtectedRoute (c : Client) : Rendered :=
  if isAuthenticated c then Children else NavigateTo "/login".

(** The requests a call added to those sent before. *)
Definition added (before after : Client) : list Request :=
  firstn (List.length (sent after) - List.length (sent before)) (sent after).

End Client.

End Api.

(** ** The registration form (Register.jsx) *)

Module Register.

Import Api.
Local Open Scope string_scope.

(** The state of the form. *)
Record FormData : Type := {
  username : string;
  email : string;
  password : string;
  confirmPassword : string;
  skillLevel : string
}.

(** The UTF-16 code units a byte of well-formed UTF-8 text stands for: one for
    an ASCII byte and for the first byte of a sequence of two or three, two
    for the first byte of a sequence of four, none for a continuation byte. *)
Definition code_units (c : ascii) : nat :=
  let n := nat_of_ascii c in
  if (n <? 128)%nat then 1
  else if (n <? 192)%nat then 0
  else if (n <? 240)%nat then 1
  else 2.

(** [s.length]. *)
Fixpoint js_length (s : string) : nat :=
  match s with
  | EmptyString => 0
  | String c rest => code_units c + js_length rest
  end.

(** A byte within two ASCII codes. *)
Definition between (low high : nat) (c : ascii) : bool :=
  ((low <=? nat_of_ascii c) && (nat_of_ascii c <=? high))%nat.

(** [/[...]/.test (s)] for a class of ASCII characters. *)
Fixpoint has_char (class : ascii -> bool) (s : string) : bool :=
  match s with
  | EmptyString => false
  | String c rest => class c || has_char class rest
  end.

Definition hasUpperCase (s : string) : bool := has_char (between 65 90) s.
Definition hasLowerCase (s : string) : bool := has_char (between 97 122) s.
Definition hasNumber (s : string) : bool := has_char (between 48 57) s.

(** [validateForm ()]: [None] when it returns [true], the message it sets
    when it returns [false].
<<
  if (formData.password !== formData.confirmPassword) {
    setError('Les mots de passe ne correspondent pas'); return false; }
  if (formData.password.length < 8) {
    setError('Le mot de passe doit contenir au moins 8 caractères'); return false; }
  const hasUpperCase = /[A-Z]/.test(formData.password);
  const hasLowerCase = /[a-z]/.test(formData.password);
  const hasNumber = /[0-9]/.test(formData.password);
  if (!hasUpperCase || !hasLowerCase || !hasNumber) {
    setError('Le mot de passe doit contenir au moins une majuscule, une minuscule et un chiffre');
    return false; }
  return true;
>> *)
Definition validateForm (form : FormData) : option string :=
  if negb (String.eqb (password form) (confirmPassword form))
  then Some "Les mots de passe ne correspondent pas"
  else if (js_length (password form) <? 8)%nat
  then Some "Le mot de passe doit contenir au moins 8 caractères"
  else if negb (hasUpperCase (password form))
          || negb (hasLowerCase (password form))
          || negb (hasNumber (password form))
  then Some "Le mot de passe doit contenir au moins une majuscule, une minuscule et un chiffre"
  else None.

(** What the page shows after a submission: the error message (empty when
    there is none), the loading mark, and the page navigated to, if any. *)
Record Page : Type := {
  error : string;
  loading : bool;
  navigation : option string
}.

(** [x || fallback] for a message field. *)
Definition message_or (f : Field) (fallback : string) : string :=
  if truthy_field f then field_text f else fallback.

(** [handleSubmit (e)]: validation first, then the registration; [success]
    leads to the login page, anything else to an error message. *)
Definition handleSubmit `{Backend} (c : Client) (form : FormData) : Client * Page :=
  match validateForm form with
  | Some message => (c, {| error := message; loading := false; navigation := None |})
  | None =>
      let (c1, result) :=
        register c (email form) (username form) (password form) (skillLevel form) in
      match result with
      | Resolved data =>
          if success data
          then (c1, {| error := ""; loading := false; navigation := Some "/login" |})
          else (c1, {| error := message_or (message data)
                                  "Erreur lors de la création du compte";
                       loading := false;
                       navigation := None |})
      | Rejected reply =>
          (c1, {| error :=
                    match reply with
                    | Answer _ data =>
                        message_or (message data)
                          "Échec de la création du compte. Veuillez réessayer."
                    | NoReply => "Échec de la création du compte. Veuillez réessayer."
                    end;
                  loading := false;
                  navigation := None |})
      end
  end.

End Register.

(** ** The webcam handler (WebcamCapture.jsx) *)

Module Webcam.

Import Landmarks Capture.
Local Open Scope string_scope.

(** The part of the component state the handler writes. *)
Record WebcamState : Type := {
  status : string;
  frameCount : nat
}.

(** [handleMediaPipeResults (results)]; [seen] is the [frameCount] the handler
    reads, the one of the render that made the handler.
<<
  setFrameCount(prev => prev + 1);
  if (results.poseLandmarks && frameCount % 30 === 0) {
    setDetectionStatus('✅ Pose détectée');
    if (onResults) {
      const formattedLandmarks = formatLandmarksForBackend(results.poseLandmarks);
      onResults({ landmarks: formattedLandmarks, timestamp: Date.now() });
    }
  } else if (!results.poseLandmarks) {
    setDetectionStatus('⚠️ Aucune pose détectée');
  }
>> *)
Definition handleMediaPipeResults (env : Env) (seen : nat) (st : WebcamState)
    (results : Results) : WebcamState * option Payload :=
  match poseLandmarks results with
  | Some detected =>
      if (seen mod 30 =? 0)%nat then
        ({| status := "✅ Pose détectée"; frameCount := S (frameCount st) |},
         if onResults env
         then Some {| landmarks := formatLandmarksForBackend detected;
                      timestamp := now env |}
         else None)
      else ({| status := status st; frameCount := S (frameCount st) |}, None)
  | None =>
      ({| status := "⚠️ Aucune pose détectée"; frameCount := S (frameCount st) |},
       None)
  end.

End Webcam.

(** ** The analysis page (Home.jsx) *)

Module Home.

Import Landmarks Api.
Local Open Scope string_scope.

(** What [setAnalysisResults] receives: the answer of the complete analysis,
    or [{success: true, classification, quality_analysis}]. *)
Inductive Analysis : Type :=
| Complete (data : Data)
| Combined (classification quality : Data).

(** The state of the page the handler writes, with the page navigated to. *)
Record Page : Type := {
  analysisResults : option Analysis;
  isAnalyzing : bool;
  error : option string;
  navigated : option string
}.

(** The page once the analysis gave [analysis]. *)
Definition analysed (page : Page) (analysis : option Analysis) : Page :=
  {| analysisResults := analysis;
     isAnalyzing := false;
     error := None;
     navigated := navigated page |}.

(** The page once the analysis was rejected with [reply]: a 401 leads to the
    login page, anything else to the error message. *)
Definition failed (page : Page) (reply : Reply) : Page :=
  if unauthorized reply
  then {| analysisResults := analysisResults page;
          isAnalyzing := false;
          error := None;
          navigated := Some "/login" |}
  else {| analysisResults := analysisResults page;
          isAnalyzing := false;
          error := Some "Erreur lors de l'analyse. Vérifiez que le serveur backend est démarré.";
          navigated := navigated page |}.

(** [handleMediaPipeResults (results)]; [authenticated] is the
    [isAuthenticated] of the render that made the handler.
<<
  if (!results.landmarks || results.landmarks.length === 0) { return; }
  setIsAnalyzing(true);
  setError(null);
  try {
    let analysis;
    if (isAuthenticated) {
      analysis = await apiService.analyzeComplete(results.landmarks);
    } else {
      const classification = await apiService.classifyPose(results.landmarks);
      if (classification.success) {
        const quality = await apiService.analyzePoseQuality(
          results.landmarks, classification.pose);
        analysis = { success: true, classification, quality_analysis: quality };
      }
    }
    setAnalysisResults(analysis);
  } catch (err) {
    if (err.response?.status === 401) {
      alert('Veuillez vous connecter pour utiliser l\'analyse complète.');
      navigate('/login');
      return;
    }
    setError('Erreur lors de l\'analyse. Vérifiez que le serveur backend est démarré.');
  } finally {
    setIsAnalyzing(false);
  }
>> *)
Definition handleMediaPipeResults `{Backend} (authenticated : bool) (c : Client)
    (page : Page) (results : Capture.Payload) : Client * Page :=
  let found := Capture.landmarks results in
  match found with
  | [] => (c, page)
  | _ =>
      if authenticated then
        let (c1, result) := analyzeComplete c found None in
        match result with
        | Resolved data => (c1, analysed page (Some (Complete data)))
        | Rejected reply => (c1, failed page reply)
        end
      else
        let (c1, result) := classifyPose c found in
        match result with
        | Resolved classification =>
            if success classification then
              let (c2, result2) :=
                analyzePoseQuality c1 found (pose classification) "intermediate" in
              match result2 with
              | Resolved quality =>
                  (c2, analysed page (Some (Combined classification quality)))
              | Rejected reply => (c2, failed page reply)
              end
            else (c1, analysed page None)
        | Rejected reply => (c1, failed page reply)
        end
  end.

End Home.

(** ** A sample server *)

Module SampleServer.

Import Api.
Local Open Scope string_scope.
Local Open Scope Z_scope.

(** A server without memory: it answers a login with a pair of tokens, and
    refuses with 401 every other request. *)
#[local] Instance backend : Backend :=
  {| ServerState := unit;
     serve := fun state request =>
       (state,
        if String.eqb (path request) "/auth/login"
        then Answer 200 {| success := true;
                           message := Missing;
                           pose := Missing;
                           tokens := Some {| access_token := Str "a1";
                                             refresh_token := Str "r1" |};
                           data_access_token := Missing |}
        else Answer 401 {| success := false;
                           message := Missing;
                           pose := Missing;
                           tokens := None;
                           data_access_token := Missing |}) |}.

(** A client that has nothing stored. *)
Definition blank : Client :=
  {| storage := ∅; server := tt; location := None; sent := [] |}.

End SampleServer.

(** ** Properties of the geometry helpers *)

Section GeometryFacts.

Import Landmarks Geometry.
Local Open Scope R_scope.

Lemma atan2_origin : atan2 0 0 = 0.
Proof.
  unfold atan2.
  destruct (Rlt_dec 0 0) as [H|_]; [lra|].
  destruct (Rlt_dec 0 0) as [H|_]; [lra|].
  reflexivity.
Qed.

Lemma atan2_up (v : R) : 0 < v -> atan2 v 0 = PI / 2.
Proof.
  intros Hv. unfold atan2.
  destruct (Rlt_dec 0 0) as [H|_]; [lra|].
  destruct (Rlt_dec 0 v) as [_|H]; [reflexivity|lra].
Qed.

Lemma atan_pos (u : R) : 0 < u -> 0 < atan u.
Proof. intros Hu. rewrite <- atan_0. now apply atan_increasing. Qed.

Lemma atan_neg (u : R) : u < 0 -> atan u < 0.
Proof. intros Hu. rewrite <- atan_0. now apply atan_increasing. Qed.

Lemma atan_nonpos (u : R) : u <= 0 -> atan u <= 0.
Proof.
  intros [Hu|Hu].
  - left. now apply atan_neg.
  - subst u. rewrite atan_0. lra.
Qed.

(** The quotient of a non-negative by a negative number is non-positive. *)
Lemma quotient_nonpos (v u : R) : 0 <= v -> u < 0 -> v / u <= 0.
Proof.
  intros Hv Hu. unfold Rdiv.
  assert (Hi : / u < 0) by now apply Rinv_lt_0_compat.
  nra.
Qed.

Lemma quotient_pos (v u : R) : v < 0 -> u < 0 -> 0 < v / u.
Proof.
  intros Hv Hu. unfold Rdiv.
  assert (Hi : / u < 0) by now apply Rinv_lt_0_compat.
  nra.
Qed.

(** [Math.atan2] ranges over [(-PI, PI]]. *)
Lemma atan2_bound (v u : R) : - PI < atan2 v u <= PI.
Proof.
  pose proof PI_RGT_0 as Hpi.
  unfold atan2.
  destruct (Rlt_dec 0 u) as [Hu|Hu].
  - pose proof (atan_bound (v / u)). lra.
  - destruct (Rlt_dec u 0) as [Hu'|Hu'].
    + destruct (Rle_dec 0 v) as [Hv|Hv].
      * pose proof (atan_bound (v / u)).
        pose proof (atan_nonpos _ (quotient_nonpos v u Hv Hu')). lra.
      * pose proof (atan_bound (v / u)).
        assert (Hq : 0 < v / u) by (apply quotient_pos; lra).
        pose proof (atan_pos _ Hq). lra.
    + destruct (Rlt_dec 0 v); [lra|].
      destruct (Rlt_dec v 0); lra.
Qed.

(** Radians to degrees keeps the bound: [|r| < 2 PI] gives [|r * 180 / PI| < 360]. *)
Lemma degrees_bound (r : R) :
  - (2 * PI) < r < 2 * PI -> Rabs (r * 180 / PI) < 360.
Proof.
  intros Hr. pose proof PI_RGT_0 as Hpi.
  replace (r * 180 / PI) with ((r / PI) * 180) by (field; lra).
  assert (Hlo : - 2 < r / PI).
  { apply Rmult_lt_reg_r with PI; [lra|].
    replace (r / PI * PI) with r by (field; lra). lra. }
  assert (Hhi : r / PI < 2).
  { apply Rmult_lt_reg_r with PI; [lra|].
    replace (r / PI * PI) with r by (field; lra). lra. }
  apply Rabs_def1; lra.
Qed.

Lemma calculateAngle_range (a b c : Landmark) : 0 <= calculateAngle a b c <= 180.
Proof.
  unfold calculateAngle.
  set (radians := atan2 (y c - y b) (x c - x b) - atan2 (y a - y b) (x a - x b)).
  pose proof (atan2_bound (y c - y b) (x c - x b)) as Hc.
  pose proof (atan2_bound (y a - y b) (x a - x b)) as Ha.
  assert (Hr : - (2 * PI) < radians < 2 * PI) by (unfold radians; lra).
  pose proof (degrees_bound radians Hr) as Hd.
  pose proof (Rabs_pos (radians * 180 / PI)) as Hp.
  cbv zeta.
  destruct (Rlt_dec 180 (Rabs (radians * 180 / PI))); lra.
Qed.

Lemma direction_degrees_range (b p : Landmark) : 0 <= direction_degrees b p <= 180.
Proof.
  unfold direction_degrees.
  pose proof PI_RGT_0 as Hpi.
  pose proof (atan2_bound (y p - y b) (x p - x b)) as Hb.
  pose proof (Rabs_pos (atan2 (y p - y b) (x p - x b))) as Hp.
  assert (Hle : Rabs (atan2 (y p - y b) (x p - x b)) <= PI)
    by (apply Rabs_le; lra).
  set (t := Rabs (atan2 (y p - y b) (x p - x b))) in *.
  replace (t * 180 / PI) with ((t / PI) * 180) by (field; lra).
  assert (0 <= t / PI).
  { apply Rmult_le_reg_r with PI; [lra|].
    replace (t / PI * PI) with t by (field; lra). lra. }
  assert (t / PI <= 1).
  { apply Rmult_le_reg_r with PI; [lra|].
    replace (t / PI * PI) with t by (field; lra). lra. }
  lra.
Qed.

(** Degrees of an absolute value: [|r * 180 / PI| = |r| * 180 / PI]. *)
Lemma Rabs_degrees (r : R) : Rabs (r * 180 / PI) = Rabs r * 180 / PI.
Proof.
  pose proof PI_RGT_0 as Hpi.
  unfold Rdiv. rewrite !Rabs_mult.
  rewrite (Rabs_pos_eq 180) by lra.
  rewrite (Rabs_pos_eq (/ PI)); [reflexivity|].
  left. now apply Rinv_0_lt_compat.
Qed.

(** With a zero-length first ray the reflection branch is never taken and the
    result is the direction of the second ray. *)
Lemma calculateAngle_first_ray_zero (a b c : Landmark) :
  coincide a b -> calculateAngle a b c = direction_degrees b c.
Proof.
  intros [Hx Hy]. unfold calculateAngle.
  replace (y a - y b) with 0 by lra.
  replace (x a - x b) with 0 by lra.
  rewrite atan2_origin, Rminus_0_r, Rabs_degrees.
  fold (direction_degrees b c).
  pose proof (direction_degrees_range b c).
  cbv zeta. destruct (Rlt_dec 180 (direction_degrees b c)); lra.
Qed.

Lemma calculateAngle_second_ray_zero (a b c : Landmark) :
  coincide c b -> calculateAngle a b c = direction_degrees b a.
Proof.
  intros [Hx Hy]. unfold calculateAngle.
  replace (y c - y b) with 0 by lra.
  replace (x c - x b) with 0 by lra.
  rewrite atan2_origin, Rminus_0_l, Rabs_degrees, Rabs_Ropp.
  fold (direction_degrees b a).
  pose proof (direction_degrees_range b a).
  cbv zeta. destruct (Rlt_dec 180 (direction_degrees b a)); lra.
Qed.

Lemma direction_along_y : direction_degrees origin along_y = 90.
Proof.
  unfold direction_degrees, origin, along_y; simpl.
  pose proof PI_RGT_0 as Hpi.
  replace (1 - 0) with 1 by lra. replace (0 - 0) with 0 by lra.
  rewrite atan2_up by lra.
  rewrite Rabs_pos_eq by lra.
  field. lra.
Qed.

(** C6. For all points [a], [b], [c] (real coordinates), [calculateAngle]
    returns a value in [[0, 180]]: it is the absolute difference [d] of the two
    [atan2] directions converted to degrees, which stays below 360, and any
    [d] above 180 is returned as [360 - d]. *)
Theorem calculateAngle_in_0_180 (a b c : Landmark) :
  let d := Rabs ((atan2 (y c - y b) (x c - x b)
                  - atan2 (y a - y b) (x a - x b)) * 180 / PI) in
  0 <= calculateAngle a b c <= 180 /\
  0 <= d < 360 /\
  calculateAngle a b c = (if Rlt_dec 180 d then 360 - d else d).
Proof.
  intros d. split; [apply calculateAngle_range|]. split; [|reflexivity].
  pose proof (atan2_bound (y c - y b) (x c - x b)) as Hc.
  pose proof (atan2_bound (y a - y b) (x a - x b)) as Ha.
  split; [apply Rabs_pos|].
  apply degrees_bound. lra.
Qed.

(** C7, the claim as stated fails: with [a] on the vertex [b] and [c] straight
    along the y axis the helper answers 90 degrees, not 0. *)
Lemma degenerate_angle_is_90 :
  coincide origin origin /\
  calculateAngle origin origin along_y = 90 /\
  calculateAngle origin origin along_y <> 0.
Proof.
  assert (H : coincide origin origin) by (split; reflexivity).
  assert (E : calculateAngle origin origin along_y = 90).
  { rewrite calculateAngle_first_ray_zero by exact H. apply direction_along_y. }
  split; [exact H|]. split; [exact E|]. rewrite E. lra.
Qed.

(** C8. [calculateDistance] is the Euclidean distance of the projections on
    the x,y plane: a non-negative number whose square is
    [(a.x - b.x)^2 + (a.y - b.y)^2], and changing the z coordinate of either
    point leaves it unchanged. *)
Theorem calculateDistance_planar (a b : Landmark) (za zb : R) :
  calculateDistance a b = sqrt ((x a - x b) ^ 2 + (y a - y b) ^ 2) /\
  0 <= calculateDistance a b /\
  calculateDistance a b ^ 2 = (x a - x b) ^ 2 + (y a - y b) ^ 2 /\
  calculateDistance (with_z a za) (with_z b zb) = calculateDistance a b.
Proof.
  split; [reflexivity|]. split; [apply sqrt_pos|]. split; [|reflexivity].
  unfold calculateDistance.
  set (s := (x a - x b) ^ 2 + (y a - y b) ^ 2).
  assert (Hs : 0 <= s).
  { unfold s. pose proof (pow2_ge_0 (x a - x b)).
    pose proof (pow2_ge_0 (y a - y b)). lra. }
  replace (sqrt s ^ 2) with (sqrt s * sqrt s) by ring.
  now apply sqrt_sqrt.
Qed.

End GeometryFacts.

(** ** The angle helper at a zero-length ray *)

Section SignedGeometryFacts.

Import SignedGeometry.
Local Open Scope R_scope.

Lemma is_zero_true (n : num) : value n = 0 -> is_zero n = true.
Proof.
  intros E. unfold is_zero. destruct (Req_dec_T (value n) 0); [reflexivity|contradiction].
Qed.

(** Of a number that is zero, the sign bit says whether it is [-0]. *)
Lemma negative_zero_sign (n : num) : value n = 0 -> negative_zero n = sign_bit n.
Proof.
  intros E. unfold negative_zero. rewrite (is_zero_true n E). apply andb_true_r.
Qed.

(** A difference is [-0] only for [-0] minus [+0]. *)
Lemma sub_negative_zero (a b : num) :
  negative_zero (sub a b) = true ->
  negative_zero a = true /\ is_zero b = true /\ sign_bit b = false.
Proof.
  unfold negative_zero at 1. cbn [sub sign_bit].
  destruct (negative_zero a); [|discriminate].
  destruct (sign_bit b); [discriminate|].
  destruct (is_zero b); [auto|discriminate].
Qed.

(** A difference of plain numbers is never [-0]. *)
Lemma sub_of_real (u v : R) : negative_zero (sub (of_real u) (of_real v)) = false.
Proof. reflexivity. Qed.

(** [Math.atan2] of a zero-length vector: a zero, or a half turn when the x
    difference is [-0]. *)
Lemma atan2_zero_vector (dy dx : num) :
  value dy = 0 -> value dx = 0 ->
  atan2 dy dx = if sign_bit dx then (if sign_bit dy then - PI else PI) else 0.
Proof.
  intros Ey Ex. unfold atan2. rewrite Ex, Ey.
  destruct (Rlt_dec 0 0) as [H|_]; [lra|]. reflexivity.
Qed.

(** [Math.atan2] of a vector along the positive x axis. *)
Lemma atan2_level_right (dy dx : num) :
  value dy = 0 -> 0 < value dx -> atan2 dy dx = 0.
Proof.
  intros Ey Hx. unfold atan2.
  destruct (Rlt_dec 0 (value dx)) as [_|H]; [|contradiction].
  rewrite Ey. unfold Rdiv. rewrite Rmult_0_l. apply atan_0.
Qed.

(** [Math.atan2] of a vector along the negative x axis. *)
Lemma atan2_level_left (dy dx : num) :
  value dy = 0 -> value dx < 0 ->
  atan2 dy dx = if sign_bit dy then - PI else PI.
Proof.
  intros Ey Hx. unfold atan2, below_zero.
  destruct (Rlt_dec 0 (value dx)) as [H|_]; [lra|].
  destruct (Rlt_dec (value dx) 0) as [_|H]; [|contradiction].
  rewrite (negative_zero_sign dy Ey). rewrite Ey.
  destruct (Rlt_dec 0 0) as [H|_]; [lra|].
  unfold Rdiv. rewrite Rmult_0_l, atan_0.
  destruct (sign_bit dy); ring.
Qed.

(** Where no difference is [-0] the helper is [Math.atan2] of the values. *)
Lemma atan2_plain (dy dx : num) :
  negative_zero dy = false -> negative_zero dx = false ->
  atan2 dy dx = Geometry.atan2 (value dy) (value dx).
Proof.
  intros Hy Hx. unfold atan2, Geometry.atan2, below_zero.
  destruct (Rlt_dec 0 (value dx)) as [_|Hx1]; [reflexivity|].
  destruct (Rlt_dec (value dx) 0) as [_|Hx2].
  - rewrite Hy.
    destruct (Rlt_dec (value dy) 0) as [Hn|Hn];
      destruct (Rle_dec 0 (value dy)) as [Hp|Hp]; try reflexivity; lra.
  - destruct (Rlt_dec 0 (value dy)) as [_|Hy1]; [reflexivity|].
    destruct (Rlt_dec (value dy) 0) as [_|Hy2]; [reflexivity|].
    assert (Ex : value dx = 0) by lra.
    rewrite (negative_zero_sign dx Ex) in Hx. rewrite Hx. reflexivity.
Qed.

(** On landmarks of real coordinates the helper is the one over the reals. *)
Lemma calculateAngle_plain (a b c : Landmarks.Landmark) :
  calculateAngle (plain a) (plain b) (plain c) = Geometry.calculateAngle a b c.
Proof.
  unfold calculateAngle, Geometry.calculateAngle, plain. cbn [x y].
  rewrite !atan2_plain by apply sub_of_real. reflexivity.
Qed.

(** [Math.atan2] ranges over [[-PI, PI]]. *)
Lemma signed_atan2_bound (dy dx : num) : - PI <= atan2 dy dx <= PI.
Proof.
  pose proof PI_RGT_0 as Hpi. unfold atan2.
  destruct (Rlt_dec 0 (value dx)) as [Hu|Hu].
  - pose proof (atan_bound (value dy / value dx)). lra.
  - destruct (Rlt_dec (value dx) 0) as [Hu'|Hu'].
    + unfold below_zero.
      destruct (Rlt_dec (value dy) 0) as [Hv|Hv].
      * pose proof (atan_bound (value dy / value dx)).
        pose proof (atan_pos _ (quotient_pos _ _ Hv Hu')). lra.
      * assert (Hq : value dy / value dx <= 0) by (apply quotient_nonpos; lra).
        pose proof (atan_bound (value dy / value dx)).
        pose proof (atan_nonpos _ Hq).
        destruct (negative_zero dy) eqn:En; [|lra].
        assert (Ey : value dy = 0).
        { unfold negative_zero, is_zero in En.
          destruct (Req_dec_T (value dy) 0); [assumption|].
          rewrite andb_false_r in En. discriminate. }
        rewrite Ey. unfold Rdiv. rewrite Rmult_0_l, atan_0. lra.
    + destruct (Rlt_dec 0 (value dy)); [lra|].
      destruct (Rlt_dec (value dy) 0); [lra|].
      destruct (sign_bit dx); [destruct (sign_bit dy)|]; lra.
Qed.

(** Radians to degrees: [|r| <= 2 PI] gives [|r * 180 / PI| <= 360]. *)
Lemma degrees_bound_closed (r : R) :
  - (2 * PI) <= r <= 2 * PI -> Rabs (r * 180 / PI) <= 360.
Proof.
  intros Hr. pose proof PI_RGT_0 as Hpi.
  replace (r * 180 / PI) with ((r / PI) * 180) by (field; lra).
  assert (Hlo : - 2 <= r / PI).
  { apply Rmult_le_reg_r with PI; [lra|].
    replace (r / PI * PI) with r by (field; lra). lra. }
  assert (Hhi : r / PI <= 2).
  { apply Rmult_le_reg_r with PI; [lra|].
    replace (r / PI * PI) with r by (field; lra). lra. }
  apply Rabs_le. lra.
Qed.

Lemma signed_calculateAngle_range (a b c : Landmark) :
  0 <= calculateAngle a b c <= 180.
Proof.
  unfold calculateAngle.
  pose proof (signed_atan2_bound (sub (y c) (y b)) (sub (x c) (x b))) as Hc.
  pose proof (signed_atan2_bound (sub (y a) (y b)) (sub (x a) (x b))) as Ha.
  set (radians := atan2 _ _ - atan2 _ _) in *.
  assert (Hr : - (2 * PI) <= radians <= 2 * PI) by (unfold radians; lra).
  pose proof (degrees_bound_closed radians Hr) as Hd.
  pose proof (Rabs_pos (radians * 180 / PI)) as Hp.
  cbv zeta. destruct (Rlt_dec 180 (Rabs (radians * 180 / PI))); lra.
Qed.

Lemma signed_direction_range (b p : Landmark) : 0 <= direction_degrees b p <= 180.
Proof.
  unfold direction_degrees. pose proof PI_RGT_0 as Hpi.
  pose proof (signed_atan2_bound (sub (y p) (y b)) (sub (x p) (x b))) as Hb.
  set (t := Rabs (atan2 _ _)).
  assert (Hp : 0 <= t) by apply Rabs_pos.
  assert (Hle : t <= PI) by (apply Rabs_le; lra).
  replace (t * 180 / PI) with ((t / PI) * 180) by (field; lra).
  assert (0 <= t / PI).
  { apply Rmult_le_reg_r with PI; [lra|].
    replace (t / PI * PI) with t by (field; lra). lra. }
  assert (t / PI <= 1).
  { apply Rmult_le_reg_r with PI; [lra|].
    replace (t / PI * PI) with t by (field; lra). lra. }
  lra.
Qed.

(** With a first ray whose direction is zero, the result is the direction of
    the other ray, in either order of the outer points. *)
Lemma calculateAngle_zero_direction (a b c : Landmark) :
  atan2 (sub (y a) (y b)) (sub (x a) (x b)) = 0 ->
  calculateAngle a b c = direction_degrees b c
  /\ calculateAngle c b a = direction_degrees b c.
Proof.
  intros E. pose proof (signed_direction_range b c) as Hd.
  unfold calculateAngle. rewrite E.
  set (t := atan2 (sub (y c) (y b)) (sub (x c) (x b))).
  replace ((t - 0) * 180 / PI) with (t * 180 / PI) by (unfold Rdiv; ring).
  replace ((0 - t) * 180 / PI) with (- (t * 180 / PI)) by (unfold Rdiv; ring).
  rewrite Rabs_Ropp, Rabs_degrees. unfold t. fold (direction_degrees b c).
  cbv zeta. destruct (Rlt_dec 180 (direction_degrees b c)); [lra|]. auto.
Qed.

(** The sign of zero at work: with [-0] for the x of [a] on a vertex at the
    origin and [c] along the positive x axis, the helper answers 180. *)
Lemma calculateAngle_negative_zero_x :
  coincide origin_negative_x origin
  /\ calculateAngle origin_negative_x origin along_x = 180.
Proof.
  split; [split; reflexivity|].
  pose proof PI_RGT_0 as Hpi.
  unfold calculateAngle.
  rewrite (atan2_level_right (sub (y along_x) (y origin)) (sub (x along_x) (x origin)))
    by (cbn; lra).
  rewrite (atan2_zero_vector (sub (y origin_negative_x) (y origin))
             (sub (x origin_negative_x) (x origin))) by (cbn; lra).
  assert (Es : sign_bit (sub (x origin_negative_x) (x origin)) = true).
  { cbn. unfold is_zero. cbn.
    destruct (Req_dec_T 0 0) as [_|Hn]; [reflexivity|contradiction]. }
  rewrite Es. cbn [sub sign_bit y origin_negative_x of_real negative_zero andb].
  replace ((0 - PI) * 180 / PI) with (Ropp 180) by (field; lra).
  rewrite Rabs_Ropp, Rabs_pos_eq by lra.
  cbv zeta. destruct (Rlt_dec 180 180); lra.
Qed.

(** C7 (as the code has it). [calculateAngle] is a total function, so it never
    raises, and when [a] coincides with the vertex [b] the result is no
    sentinel.  [Math.atan2] gives the zero-length vector a direction along
    the x axis: the positive x axis, or the negative one when the x difference
    is [-0].  So the result, within [[0, 180]], is the one for any point [a']
    on that side of [b] at the height of [a], whichever of the two outer
    arguments is the degenerate one; and unless the x difference is [-0] it
    is the unsigned direction, in degrees, of the remaining ray from [b] to
    [c] measured from the positive x axis. *)
Theorem calculateAngle_degenerate (a b c a' : Landmark) :
  coincide a b ->
  y a' = y a ->
  (if negative_zero (sub (x a) (x b))
   then value (x a') < value (x b)
   else value (x b) < value (x a')) ->
  0 <= calculateAngle a b c <= 180
  /\ calculateAngle a b c = calculateAngle a' b c
  /\ calculateAngle c b a = calculateAngle c b a'
  /\ (negative_zero (sub (x a) (x b)) = false ->
      calculateAngle a b c = direction_degrees b c
      /\ calculateAngle c b a = direction_degrees b c).
Proof.
  intros [Hx Hy] Ey Hside.
  assert (Edx : value (sub (x a) (x b)) = 0) by (cbn; lra).
  assert (Edy : value (sub (y a) (y b)) = 0) by (cbn; lra).
  assert (Edy' : value (sub (y a') (y b)) = 0) by (rewrite Ey; exact Edy).
  rewrite (negative_zero_sign _ Edx) in *.
  pose proof (atan2_zero_vector _ _ Edy Edx) as Ez.
  assert (Esame : atan2 (sub (y a') (y b)) (sub (x a') (x b))
                  = atan2 (sub (y a) (y b)) (sub (x a) (x b))).
  { rewrite Ez. destruct (sign_bit (sub (x a) (x b))).
    - rewrite atan2_level_left by (try exact Edy'; cbn; lra).
      rewrite Ey. reflexivity.
    - apply atan2_level_right; [exact Edy'|cbn; lra]. }
  split; [apply signed_calculateAngle_range|].
  split; [unfold calculateAngle; rewrite Esame; reflexivity|].
  split; [unfold calculateAngle; rewrite Esame; reflexivity|].
  intros Hs. apply calculateAngle_zero_direction. rewrite Ez, Hs. reflexivity.
Qed.

Lemma calculateAngle_degenerate_witness :
  coincide origin origin
  /\ calculateAngle origin origin along_y = direction_degrees origin along_y.
Proof.
  assert (H : coincide origin origin) by (split; reflexivity).
  split; [exact H|].
  assert (Hside : if negative_zero (sub (x origin) (x origin))
                  then value (x along_x) < value (x origin)
                  else value (x origin) < value (x along_x)).
  { cbn. lra. }
  destruct (calculateAngle_degenerate origin origin along_y along_x H eq_refl Hside)
    as (_ & _ & _ & Hd).
  apply Hd. reflexivity.
Defined.

End SignedGeometryFacts.

(** ** Properties of the aggregator *)

Section AggregatorFacts.

Import Engine.
Local Open Scope Q_scope.

Context `{Analyzers}.

Lemma above_lower (bound bound' : Q) (entries : IndicatorSet) :
  bound' < bound -> above bound entries -> above bound' entries.
Proof.
  intros Hlt. unfold above. apply List.Forall_impl. intros entry He.
  now apply Qlt_trans with bound.
Qed.

Lemma not_below_lower (bound bound' : Q) (entries : IndicatorSet) :
  bound' < bound -> not_below bound entries -> above bound' entries.
Proof.
  intros Hlt. unfold not_below, above. apply List.Forall_impl. intros entry He.
  now apply Qlt_le_trans with bound.
Qed.

(** The scan invariant: with [best] the first lowest entry of what was read,
    the result is the first lowest entry of the whole list. *)
Lemma lowest_split (rest : IndicatorSet) :
  forall (best : string * Q) (before between : IndicatorSet),
    above (snd best) before ->
    not_below (snd best) between ->
    exists before' after',
      before ++ best :: between ++ rest = before' ++ lowest best rest :: after'
      /\ above (snd (lowest best rest)) before'
      /\ not_below (snd (lowest best rest)) after'.
Proof.
  induction rest as [|entry rest IH]; intros best before between Hb Hm.
  - exists before, between. rewrite app_nil_r. simpl. auto.
  - simpl. destruct (Qlt_le_dec (snd entry) (snd best)) as [Hlt|Hle].
    + destruct (IH entry (before ++ best :: between) []) as (b' & a' & E & Hb' & Ha').
      * unfold above. apply Forall_app. split; [now apply above_lower with (snd best)|].
        constructor; [exact Hlt|]. now apply not_below_lower with (snd best).
      * constructor.
      * exists b', a'. split; [|auto].
        rewrite <- E. simpl. rewrite <- app_assoc. reflexivity.
    + destruct (IH best before (between ++ [entry])) as (b' & a' & E & Hb' & Ha').
      * exact Hb.
      * unfold not_below. apply Forall_app. split; [exact Hm|].
        constructor; [exact Hle|constructor].
      * exists b', a'. split; [|auto].
        rewrite <- E. rewrite <- app_assoc. reflexivity.
Qed.

(** The scan answers with an entry of the list: every entry before it is
    strictly higher and every entry after it is at least as high. *)
Lemma lowest_is_first_lowest (first : string * Q) (rest : IndicatorSet) :
  exists before after,
    first :: rest = before ++ lowest first rest :: after
    /\ above (snd (lowest first rest)) before
    /\ not_below (snd (lowest first rest)) after.
Proof.
  destruct (lowest_split rest first [] []) as (b & a & E & Hb & Ha);
    [constructor|constructor|].
  exists b, a. auto.
Qed.

(** For a non-empty IndicatorSet the priority indicator is an entry of the
    set; every entry before it is strictly higher and every entry after it is
    at least as high. *)
Lemma identify_priority_indicator_first_lowest (indicators : IndicatorSet) :
  indicators <> [] ->
  exists p before after,
    identify_priority_indicator indicators = Some p
    /\ indicators = before ++ (name p, score p) :: after
    /\ above (score p) before
    /\ not_below (score p) after.
Proof.
  destruct indicators as [|first rest]; [congruence|]. intros _.
  destruct (lowest_is_first_lowest first rest) as (b & a & E & Hb & Ha).
  eexists. exists b, a. split; [reflexivity|].
  cbn [name score]. rewrite <- surjective_pairing. auto.
Qed.

End AggregatorFacts.

Section DocumentedResponse.

Import Engine.
Local Open Scope Q_scope.

(** The priority indicator of the documented response is the one the scan
    selects from its indicators. *)
Lemma documented_priority_indicator :
  @identify_priority_indicator Documented.analyzers Documented.indicators
  = Some Documented.priority_indicator.
Proof. reflexivity. Qed.

End DocumentedResponse.

(** ** Rounding to one decimal place *)

Section RoundingFacts.

Import Engine.
Local Open Scope Q_scope.

(** The rounded integer is within one half of the number. *)
Lemma round_half_even_close (q : Q) :
  inject_Z (round_half_even q) - (1 # 2) <= q
  /\ q <= inject_Z (round_half_even q) + (1 # 2).
Proof.
  unfold round_half_even.
  pose proof (Qfloor_le q) as Hlo. pose proof (Qlt_floor q) as Hhi.
  rewrite inject_Z_plus in Hhi. change (inject_Z 1) with 1 in Hhi.
  set (low := Qfloor q) in *.
  destruct (Qcompare (q - inject_Z low) (1 # 2)) eqn:C.
  - apply Qeq_alt in C.
    destruct (Z.even low); [|rewrite inject_Z_plus; change (inject_Z 1) with 1];
      split; Lqa.lra.
  - apply Qlt_alt in C. split; Lqa.lra.
  - apply Qgt_alt in C. rewrite inject_Z_plus. change (inject_Z 1) with 1.
    split; Lqa.lra.
Qed.

(** A score rounded to one decimal place is within 0.05 of the score. *)
Lemma round1_close (q : Q) :
  round1 q - (1 # 20) <= q /\ q <= round1 q + (1 # 20).
Proof.
  unfold round1. destruct (round_half_even_close (q * 10)) as [Hlo Hhi].
  set (r := inject_Z (round_half_even (q * 10))) in *.
  assert (E : r / 10 == r * (1 # 10)) by (field).
  rewrite E. split; Lqa.lra.
Qed.

(** The global score of a non-empty IndicatorSet is its mean rounded to one
    decimal place, hence within 0.05 of the mean. *)
Lemma global_score_is_rounded_mean (indicators : IndicatorSet) :
  indicators <> [] ->
  exists m,
    mean (scores indicators) = Some m
    /\ calculate_global_score indicators = Some (round1 m)
    /\ round1 m - (1 # 20) <= m <= round1 m + (1 # 20).
Proof.
  destruct indicators as [|first rest]; [congruence|]. intros _.
  eexists. split; [reflexivity|]. split; [reflexivity|]. apply round1_close.
Qed.

End RoundingFacts.

(** ** The gating law and the unavailable report *)

Section GatingFacts.

Import Landmarks Engine.
Local Open Scope Q_scope.

Context `{Analyzers}.

Lemma frame_length_test (landmarks : list Landmark) :
  List.length landmarks = 33%nat ->
  negb (List.length landmarks =? 33)%nat = false.
Proof. intros ->. reflexivity. Qed.

(** Below the threshold the report is the unavailable one, whatever the
    landmarks and the pose name. *)
Lemma low_confidence_unavailable (landmarks : list Landmark) (poseName : string)
    (confidence : Q) :
  List.length landmarks = 33%nat ->
  confidence < gating_threshold ->
  analyzeQuality landmarks poseName confidence = inr Unavailable.
Proof.
  intros Hlen Hlow. unfold analyzeQuality.
  rewrite (frame_length_test _ Hlen).
  destruct (Qlt_le_dec confidence gating_threshold) as [_|Hge]; [reflexivity|].
  exfalso. apply (Qlt_irrefl confidence).
  now apply Qlt_le_trans with gating_threshold.
Qed.

(** A non-empty IndicatorSet has a global score and a priority indicator. *)
Lemma aggregate_nonempty (found : IndicatorSet) :
  found <> [] ->
  exists global priority,
    calculate_global_score found = Some global
    /\ identify_priority_indicator found = Some priority.
Proof.
  destruct found as [|first rest]; [congruence|]. intros _.
  eexists. eexists. split; reflexivity.
Qed.

(** At or above the threshold a supported pose gets a full report. *)
Lemma high_confidence_full (landmarks : list Landmark) (poseName : string)
    (confidence : Q) (p : Pose) :
  List.length landmarks = 33%nat ->
  parse_pose poseName = Some p ->
  fst (analyze p landmarks) <> [] ->
  gating_threshold <= confidence ->
  exists report,
    analyzeQuality landmarks poseName confidence = inr (Full report)
    /\ pose report = p
    /\ indicators report = fst (analyze p landmarks)
    /\ calculate_global_score (indicators report) = Some (global_score report).
Proof.
  intros Hlen Hpose Hne Hhigh. unfold analyzeQuality.
  rewrite (frame_length_test _ Hlen).
  destruct (Qlt_le_dec confidence gating_threshold) as [Hlow|_].
  { exfalso. apply (Qlt_irrefl confidence).
    now apply Qlt_le_trans with gating_threshold. }
  rewrite Hpose.
  destruct (analyze p landmarks) as [found messages]. cbn [fst] in Hne.
  destruct (aggregate_nonempty found Hne) as (global & priority & Hg & Hp).
  rewrite Hg, Hp. eexists. split; [reflexivity|]. cbn. auto.
Qed.

(** The renderer shows the unavailable notice exactly when the report has no
    indicators. *)
Lemma unavailable_iff_no_indicators (qa : Display.QualityAnalysis) :
  Display.renderQualityAnalysis (Some qa) = Display.QualityUnavailable
  <-> Display.indicators qa = None.
Proof.
  unfold Display.renderQualityAnalysis.
  destruct (Display.indicators qa) as [entries|]; split; intros E;
    try reflexivity; discriminate.
Qed.

(** What a full report is made of. *)
Lemma full_report_inversion (landmarks : list Landmark) (poseName : string)
    (confidence : Q) (report : QualityReport) :
  analyzeQuality landmarks poseName confidence = inr (Full report) ->
  List.length landmarks = 33%nat
  /\ gating_threshold <= confidence
  /\ parse_pose poseName = Some (pose report)
  /\ analyze (pose report) landmarks = (indicators report, feedback report)
  /\ calculate_global_score (indicators report) = Some (global_score report)
  /\ identify_priority_indicator (indicators report) = Some (priority_indicator report)
  /\ skill_level report = determine_skill_level (global_score report).
Proof.
  unfold analyzeQuality.
  destruct (List.length landmarks =? 33)%nat eqn:Hlen; [|discriminate].
  apply Nat.eqb_eq in Hlen. cbn [negb].
  destruct (Qlt_le_dec confidence gating_threshold) as [_|Hge]; [discriminate|].
  destruct (parse_pose poseName) as [p|]; [|discriminate].
  destruct (analyze p landmarks) as [found messages] eqn:Ha.
  destruct (calculate_global_score found) as [global|] eqn:Hg; [|discriminate].
  destruct (identify_priority_indicator found) as [priority|] eqn:Hp; [|discriminate].
  intros [= <-]. cbn. auto 10.
Qed.

(** A report that is not a failure is the unavailable one below the threshold
    and a full one from the threshold on. *)
Lemma report_follows_confidence (landmarks : list Landmark) (poseName : string)
    (confidence : Q) (result : Report) :
  analyzeQuality landmarks poseName confidence = inr result ->
  if Qlt_le_dec confidence gating_threshold
  then result = Unavailable
  else exists report, result = Full report.
Proof.
  unfold analyzeQuality.
  destruct (negb (List.length landmarks =? 33)%nat); [discriminate|].
  destruct (Qlt_le_dec confidence gating_threshold) as [_|_]; [congruence|].
  destruct (parse_pose poseName) as [p|]; [|discriminate].
  destruct (analyze p landmarks) as [found messages].
  destruct (calculate_global_score found); [|discriminate].
  destruct (identify_priority_indicator found); [|discriminate].
  intros [= <-]. eexists. reflexivity.
Qed.

(** C1. In every full report, whatever the posture, the global score is
    exactly the arithmetic mean of the indicator scores of the report, their
    sum divided by their number, rounded to one decimal place; the report has
    at least one indicator.  In particular a report with the indicators of the
    worked example, 92.3, 100.0, 87.5 and 85.2, carries the mean 91.25 rounded
    to one decimal place, a tie that goes to the even neighbour 91.2. *)
Theorem aggregation_law (landmarks : list Landmark) (poseName : string)
    (confidence : Q) (report : QualityReport) :
  analyzeQuality landmarks poseName confidence = inr (Full report) ->
  indicators report <> []
  /\ (exists m,
        mean (scores (indicators report)) = Some m
        /\ m = total (scores (indicators report))
               / inject_Z (Z.of_nat (List.length (indicators report)))
        /\ global_score report = round1 m)
  /\ (indicators report = Documented.indicators ->
      global_score report == round1 (9125 # 100)
      /\ global_score report == 912 # 10).
Proof.
  intros E. apply full_report_inversion in E.
  destruct E as (_ & _ & _ & _ & Hg & _).
  assert (Hne : indicators report <> []).
  { intros Hnil. rewrite Hnil in Hg. discriminate. }
  split; [exact Hne|]. split.
  - unfold calculate_global_score, mean in *.
    destruct (indicators report) as [|first rest] eqn:Ei; [congruence|].
    cbn [scores List.map option_map] in *. injection Hg as Hg.
    eexists. split; [reflexivity|]. split; [|now rewrite <- Hg].
    cbn [List.length]. rewrite List.length_map. reflexivity.
  - intros Ed. rewrite Ed in Hg. injection Hg as Hg.
    rewrite <- Hg. split; reflexivity.
Qed.

(** C3. In every full report the IndicatorSet is not empty and the priority
    indicator is one of its entries, [(name, score)], whose score is the
    minimum of the set: every entry declared before it is strictly higher, so
    that among entries tied for the minimum the first-declared is the one
    selected, and every entry declared after it is at least as high. *)
Theorem priority_is_first_lowest (landmarks : list Landmark) (poseName : string)
    (confidence : Q) (report : QualityReport) :
  analyzeQuality landmarks poseName confidence = inr (Full report) ->
  indicators report <> []
  /\ exists before after,
       indicators report
       = before ++ (name (priority_indicator report),
                    score (priority_indicator report)) :: after
       /\ above (score (priority_indicator report)) before
       /\ not_below (score (priority_indicator report)) after.
Proof.
  intros E. apply full_report_inversion in E.
  destruct E as (_ & _ & _ & _ & _ & Hp & _).
  assert (Hne : indicators report <> []).
  { intros Hnil. rewrite Hnil in Hp. discriminate. }
  split; [exact Hne|].
  destruct (identify_priority_indicator_first_lowest _ Hne)
    as (p & before & after & Hp' & Hs & Hb & Ha).
  assert (p = priority_indicator report) by congruence. subst p.
  exists before, after. auto.
Qed.

(** C2. For a frame of 33 landmarks: with a confidence below 0.70 the result
    is the unavailable report, whatever the landmarks and the pose name; that
    report reaches the display layer without indicators and without a global
    score and is shown as unavailable; with a confidence of 0.70 or more, a
    supported pose and a non-empty IndicatorSet from its analyzer, the result
    is a full report, which is shown with its quality section, and any result
    that is not a hard failure is a full report.  The renderer shows the
    unavailable notice when there is no report at all, and shows a report as
    unavailable exactly when its indicators are absent. *)
Theorem gating_law :
  (forall (landmarks : list Landmark) (poseName : string) (confidence : Q),
     List.length landmarks = 33%nat ->
     confidence < 7 # 10 ->
     analyzeQuality landmarks poseName confidence = inr Unavailable)
  /\ (Display.indicators (to_wire Unavailable) = None
      /\ Display.global_score (to_wire Unavailable) = Display.Undefined
      /\ Display.renderQualityAnalysis (Some (to_wire Unavailable))
         = Display.QualityUnavailable)
  /\ (forall (landmarks : list Landmark) (poseName : string) (confidence : Q)
        (p : Pose),
        List.length landmarks = 33%nat ->
        parse_pose poseName = Some p ->
        fst (analyze p landmarks) <> [] ->
        7 # 10 <= confidence ->
        exists report section,
          analyzeQuality landmarks poseName confidence = inr (Full report)
          /\ Display.renderQualityAnalysis (Some (to_wire (Full report)))
             = Display.QualityShown section)
  /\ (forall (landmarks : list Landmark) (poseName : string) (confidence : Q)
        (result : Report),
        7 # 10 <= confidence ->
        analyzeQuality landmarks poseName confidence = inr result ->
        exists report, result = Full report)
  /\ Display.renderQualityAnalysis None = Display.QualityUnavailable
  /\ (forall qa : Display.QualityAnalysis,
        Display.renderQualityAnalysis (Some qa) = Display.QualityUnavailable
        <-> Display.indicators qa = None).
Proof.
  split; [|split; [|split; [|split; [|split]]]].
  - intros landmarks poseName confidence. apply low_confidence_unavailable.
  - repeat split.
  - intros landmarks poseName confidence p Hlen Hpose Hne Hhigh.
    destruct (high_confidence_full landmarks poseName confidence p Hlen Hpose Hne Hhigh)
      as (report & E & _).
    exists report. eexists. split; [exact E|reflexivity].
  - intros landmarks poseName confidence result Hhigh E.
    apply report_follows_confidence in E.
    destruct (Qlt_le_dec confidence gating_threshold) as [Hlow|_]; [|exact E].
    exfalso. apply (Qlt_irrefl confidence).
    now apply Qlt_le_trans with gating_threshold.
  - reflexivity.
  - apply unavailable_iff_no_indicators.
Qed.

End GatingFacts.

Section GatingExamples.

Import Landmarks Engine.
Local Open Scope Q_scope.
Local Open Scope string_scope.

Lemma gating_law_witness :
  @analyzeQuality Documented.analyzers Documented.frame "plank" (40 # 100)
    = inr Unavailable
  /\ exists report section,
       @analyzeQuality Documented.analyzers Documented.frame "plank" (94 # 100)
         = inr (Full report)
       /\ Display.renderQualityAnalysis (Some (to_wire (Full report)))
          = Display.QualityShown section.
Proof.
  destruct (@gating_law Documented.analyzers) as (Hlow & _ & Hhigh & _).
  split.
  - apply Hlow; [reflexivity|reflexivity].
  - apply (Hhigh Documented.frame "plank" (94 # 100) Plank);
      [reflexivity|reflexivity|discriminate|discriminate].
Defined.

Lemma aggregation_law_witness :
  exists report,
    @analyzeQuality Documented.analyzers Documented.frame "plank" (94 # 100)
      = inr (Full report)
    /\ global_score report == 912 # 10.
Proof.
  eexists.
  assert (E : @analyzeQuality Documented.analyzers Documented.frame "plank" (94 # 100)
              = inr (Full _)) by reflexivity.
  destruct (@aggregation_law Documented.analyzers _ _ _ _ E) as (_ & _ & Hex).
  split; [exact E|]. apply Hex. reflexivity.
Defined.

Lemma priority_is_first_lowest_witness :
  exists report before after,
    @analyzeQuality Documented.analyzers Documented.frame "plank" (94 # 100)
      = inr (Full report)
    /\ indicators report
       = (before ++ (name (priority_indicator report),
                     score (priority_indicator report)) :: after)%list.
Proof.
  eexists.
  assert (E : @analyzeQuality Documented.analyzers Documented.frame "plank" (94 # 100)
              = inr (Full _)) by reflexivity.
  destruct (@priority_is_first_lowest Documented.analyzers _ _ _ _ E)
    as (_ & before & after & S & _).
  exists before, after. split; [exact E|exact S].
Defined.

End GatingExamples.

(** ** The payload assembled from the landmarks *)

Section CaptureFacts.

Import Landmarks Capture.
Local Open Scope Z_scope.

Context `{Engine.Analyzers}.

(** The formatted landmarks carry the same four fields as the detected ones. *)
Lemma formatLandmarksForBackend_copy (detected : list Landmark) :
  formatLandmarksForBackend detected = detected.
Proof.
  unfold formatLandmarksForBackend.
  induction detected as [|landmark rest IH]; [reflexivity|].
  cbn [List.map]. rewrite IH. now destruct landmark.
Qed.

(** A payload is handed over only for a non-empty detection, and then holds
    the formatted landmarks and the reading of the clock. *)
Lemma payload_inversion (env : Env) (st : ProcessorState) (results : Results)
    (payload : Payload) :
  snd (handleMediaPipeResults env st results) = Some payload ->
  exists detected,
    poseLandmarks results = Some detected
    /\ landmarks payload = formatLandmarksForBackend detected
    /\ timestamp payload = now env.
Proof.
  unfold handleMediaPipeResults.
  destruct (poseLandmarks results) as [detected|]; [|discriminate].
  destruct (0 <? List.length detected)%nat; [|discriminate].
  destruct (onResults env); [|discriminate].
  cbn [snd]. intros [= <-]. exists detected. auto.
Qed.

(** C5 (as the code has it). Two runs on the same detection hand over payloads
    with the same landmarks, the formatted copy of the detected ones, so that
    the quality reports computed from the two payloads are the same; each
    payload also carries the reading of the wall clock at its run as
    timestamp, and the two payloads are equal exactly when the two clock
    readings are. *)
Theorem payloads_agree_up_to_timestamp (env1 env2 : Env) (st1 st2 : ProcessorState)
    (results : Results) (payload1 payload2 : Payload) :
  snd (handleMediaPipeResults env1 st1 results) = Some payload1 ->
  snd (handleMediaPipeResults env2 st2 results) = Some payload2 ->
  landmarks payload1 = landmarks payload2
  /\ Some (landmarks payload1) = poseLandmarks results
  /\ (forall (poseName : string) (confidence : Q),
        Engine.analyzeQuality (landmarks payload1) poseName confidence
        = Engine.analyzeQuality (landmarks payload2) poseName confidence)
  /\ timestamp payload1 = now env1
  /\ timestamp payload2 = now env2
  /\ (payload1 = payload2 <-> now env1 = now env2).
Proof.
  intros H1 H2.
  destruct (payload_inversion _ _ _ _ H1) as (d1 & E1 & L1 & T1).
  destruct (payload_inversion _ _ _ _ H2) as (d2 & E2 & L2 & T2).
  assert (d2 = d1) by congruence. subst d2.
  assert (HL : landmarks payload1 = landmarks payload2) by congruence.
  split; [exact HL|]. split.
  { rewrite L1, formatLandmarksForBackend_copy. now symmetry. }
  split; [intros poseName confidence; now rewrite HL|].
  split; [exact T1|]. split; [exact T2|]. split.
  - intros ->. congruence.
  - intros Hnow. destruct payload1, payload2. cbn in *. congruence.
Qed.

(** C5, the claim as stated fails: two runs on identical landmarks, one second
    apart, hand over different payloads. *)
Lemma payload_depends_on_the_clock :
  snd (handleMediaPipeResults (at_clock 1000) processing one_landmark)
  <> snd (handleMediaPipeResults (at_clock 2000) processing one_landmark).
Proof.
  cbn. intros E. injection E as E. discriminate.
Qed.

End CaptureFacts.

Section CaptureExamples.

Import Landmarks Capture.
Local Open Scope Z_scope.

Lemma payloads_agree_up_to_timestamp_witness :
  exists payload1 payload2,
    snd (handleMediaPipeResults (at_clock 1000) processing one_landmark) = Some payload1
    /\ snd (handleMediaPipeResults (at_clock 2000) processing one_landmark) = Some payload2
    /\ landmarks payload1 = landmarks payload2.
Proof.
  eexists. eexists.
  assert (H1 : snd (handleMediaPipeResults (at_clock 1000) processing one_landmark)
               = Some {| landmarks := formatLandmarksForBackend [origin];
                         timestamp := 1000 |}) by reflexivity.
  assert (H2 : snd (handleMediaPipeResults (at_clock 2000) processing one_landmark)
               = Some {| landmarks := formatLandmarksForBackend [origin];
                         timestamp := 2000 |}) by reflexivity.
  split; [exact H1|]. split; [exact H2|].
  exact (proj1 (@payloads_agree_up_to_timestamp Documented.analyzers
                  _ _ _ _ _ _ _ H1 H2)).
Defined.

End CaptureExamples.

(** ** Properties of the display layer *)

Section DisplayFacts.

Import Display.
Local Open Scope string_scope.

(** *** Skill-level labels *)

Lemma labels_lookup (key : string) :
  labels !! key =
  if decide (key = "beginner") then Some "Débutant"
  else if decide (key = "intermediate") then Some "Intermédiaire"
  else if decide (key = "advanced") then Some "Avancé"
  else None.
Proof.
  unfold labels. simpl list_to_map. rewrite !lookup_insert.
  repeat case_decide; subst; try congruence; reflexivity.
Qed.

(** The table has entries of its own for three identifiers only. *)
Lemma dedicated_labels (key : string) :
  dedicated labels key = true
  <-> key = "beginner" \/ key = "intermediate" \/ key = "advanced".
Proof.
  unfold dedicated. rewrite labels_lookup.
  repeat case_decide; subst; split; intros E; auto; try discriminate.
  destruct E as [E|[E|E]]; congruence.
Qed.

(** C4 (as the code has it). Of the four skill levels a report can carry,
    beginner, intermediate and advanced have a label of their own in the
    presentation-side table, and they are the only identifiers that have one;
    expert has none and is displayed through the fallback, as the raw
    identifier. *)
Theorem skill_level_labels :
  (forall level : Engine.SkillLevel,
     getSkillLevelLabel (Engine.skill_level_name level)
     = Text match level with
            | Engine.Beginner => "Débutant"
            | Engine.Intermediate => "Intermédiaire"
            | Engine.Advanced => "Avancé"
            | Engine.Expert => "expert"
            end
     /\ dedicated labels (Engine.skill_level_name level)
        = match level with
          | Engine.Expert => false
          | _ => true
          end
     /\ In (Engine.skill_level_name level)
           ["beginner"; "intermediate"; "advanced"; "expert"])
  /\ (forall key : string,
        dedicated labels key = true
        <-> key = "beginner" \/ key = "intermediate" \/ key = "advanced").
Proof.
  split; [|exact dedicated_labels].
  intros level. destruct level; (split; [reflexivity|split; [reflexivity|]]);
    cbn; auto.
Qed.

(** C4, the claim as stated fails: not every skill level has a label of its
    own, expert has none. *)
Lemma expert_has_no_label :
  ~ (forall level : Engine.SkillLevel,
       dedicated labels (Engine.skill_level_name level) = true).
Proof.
  intros Hall. specialize (Hall Engine.Expert). discriminate.
Qed.

(** *** Feedback classes *)

Lemma prefix_trans (a c s : string) :
  String.prefix a c = true -> String.prefix c s = true -> String.prefix a s = true.
Proof.
  revert c s. induction a as [|x a IH]; intros c s; [now destruct s|].
  destruct c as [|y c]; [discriminate|]. destruct s as [|w s]; [discriminate|].
  cbn [String.prefix].
  destruct (ascii_dec x y) as [->|]; [|discriminate].
  destruct (ascii_dec y w) as [->|]; [|discriminate].
  apply IH.
Qed.

(** A string that includes a needle includes every prefix of the needle. *)
Lemma includes_prefix (a c s : string) :
  String.prefix a c = true -> includes s c = true -> includes s a = true.
Proof.
  intros Hac. induction s as [|d s IH]; cbn [includes]; intros E.
  - apply orb_true_iff in E. destruct E as [E|E]; [|discriminate].
    now rewrite (prefix_trans a c _ Hac E).
  - apply orb_true_iff in E. destruct E as [E|E].
    + now rewrite (prefix_trans a c _ Hac E).
    + rewrite (IH E). apply orb_true_r.
Qed.

Lemma double_check_includes_check (message : string) :
  includes message "✓" = false -> includes message "✓✓" = false.
Proof.
  intros E. destruct (includes message "✓✓") eqn:D; [|reflexivity].
  apply (includes_prefix "✓" "✓✓") in D; [congruence|reflexivity].
Qed.



(** A string without any marker is neutral. *)
Lemma unmarked_is_neutral (message : string) :
  includes message "✓" = false ->
  includes message "🏆" = false ->
  includes message "⚠️" = false ->
  includes message "💡" = false ->
  includes message "💪" = false ->
  getFeedbackClass message = "feedback-neutral".
Proof.
  intros H1 H2 H3 H4 H5. unfold getFeedbackClass.
  rewrite (double_check_includes_check _ H1), H1, H2, H3, H4, H5. reflexivity.
Qed.


(** *** Fallbacks for missing scores *)









End DisplayFacts.

(** ** Further properties of the geometry helpers *)

Section GeometryMore.

Import Landmarks Geometry.
Local Open Scope R_scope.

(** X1. [calculateDistance] does not depend on the order of its arguments, and
    it is zero for two points that coincide in the image plane. *)
Theorem calculateDistance_symmetric (a b : Landmark) :
  calculateDistance a b = calculateDistance b a
  /\ (coincide a b -> calculateDistance a b = 0).
Proof.
  unfold calculateDistance, coincide. split.
  - f_equal. ring.
  - intros [Ex Ey]. rewrite Ex, Ey.
    replace ((x b - x b) ^ 2 + (y b - y b) ^ 2) with 0 by ring.
    apply sqrt_0.
Qed.

Lemma calculateDistance_symmetric_witness :
  coincide origin origin /\ calculateDistance origin origin = 0.
Proof.
  assert (H : coincide origin origin) by (split; reflexivity).
  split; [exact H|].
  exact (proj2 (calculateDistance_symmetric origin origin) H).
Defined.

(** X3. [calculateAngle] gives the same angle when the two outer points are
    exchanged, and the angle 0 when the two outer points are one and the same
    point. *)
Theorem calculateAngle_symmetric (a b c : Landmark) :
  calculateAngle c b a = calculateAngle a b c
  /\ calculateAngle a b a = 0.
Proof.
  split.
  - unfold calculateAngle.
    replace ((atan2 (y a - y b) (x a - x b) - atan2 (y c - y b) (x c - x b))
             * 180 / PI)
      with (- ((atan2 (y c - y b) (x c - x b) - atan2 (y a - y b) (x a - x b))
               * 180 / PI))
      by (unfold Rdiv; ring).
    rewrite Rabs_Ropp. reflexivity.
  - unfold calculateAngle.
    replace ((atan2 (y a - y b) (x a - x b) - atan2 (y a - y b) (x a - x b))
             * 180 / PI) with 0 by (unfold Rdiv; ring).
    rewrite Rabs_R0. cbv zeta. destruct (Rlt_dec 180 0); lra.
Qed.

End GeometryMore.

(** ** The score box stays on the canvas *)

Section CanvasFacts.

Import Display Canvas.
Local Open Scope Z_scope.



End CanvasFacts.

(** ** Further properties of the display layer *)

Section DisplayMore.

Import Display DisplayTerms Difficulty.
Local Open Scope string_scope.

(** *** Colour bands *)

Lemma at_least_true (q k : Q) : at_least (Fin q) k = true <-> (k <= q)%Q.
Proof. apply Qle_bool_iff. Qed.

Lemma at_least_false (q k : Q) : at_least (Fin q) k = false <-> (q < k)%Q.
Proof.
  cbn. split.
  - intros E. apply Qnot_le_lt. intros Hle.
    apply Qle_bool_iff in Hle. congruence.
  - intros Hlt. destruct (Qle_bool k q) eqn:E; [|reflexivity].
    apply Qle_bool_iff in E. exfalso. apply (Qlt_irrefl q).
    now apply Qlt_le_trans with k.
Qed.

(** X7. The colour of a score never goes down a band when the score goes up;
    the top colour is given exactly from 85 on and the bottom colour exactly
    below 50; NaN gets the bottom colour. *)
Theorem getScoreColor_monotone (low high : Q) :
  (low <= high)%Q ->
  (band (getScoreColor (Fin low)) <= band (getScoreColor (Fin high)))%nat
  /\ (getScoreColor (Fin high) = "#22c55e" <-> (85 <= high)%Q)
  /\ (getScoreColor (Fin low) = "#ef4444" <-> (low < 50)%Q)
  /\ getScoreColor NaN = "#ef4444".
Proof.
  intros Hle. unfold getScoreColor.
  destruct (at_least (Fin low) 85) eqn:L85;
    destruct (at_least (Fin low) 70) eqn:L70;
    destruct (at_least (Fin low) 50) eqn:L50;
    destruct (at_least (Fin high) 85) eqn:H85;
    destruct (at_least (Fin high) 70) eqn:H70;
    destruct (at_least (Fin high) 50) eqn:H50;
    repeat match goal with
           | H : at_least (Fin _) _ = true |- _ => apply at_least_true in H
           | H : at_least (Fin _) _ = false |- _ => apply at_least_false in H
           end;
    try (exfalso; Lqa.lra);
    (split; [cbn; lia|]);
    (split; [split; intros E; try discriminate; try reflexivity; try Lqa.lra|]);
    (split; [split; intros E; try discriminate; try reflexivity; try Lqa.lra|]);
    reflexivity.
Qed.

Lemma getScoreColor_monotone_witness :
  (band (getScoreColor (Fin (69 # 1))) <= band (getScoreColor (Fin (912 # 10))))%nat.
Proof.
  apply (proj1 (getScoreColor_monotone (69 # 1) (912 # 10) ltac:(discriminate))).
Defined.

(** *** Feedback classes *)

(** X8. The class of a feedback string is feedback-neutral exactly when the
    string holds none of the check mark, the trophy, the warning sign, the
    bulb and the biceps; and a string that holds a check mark is classed
    feedback-excellent or feedback-good whatever else it holds, a warning sign
    included. *)
Theorem feedback_neutral_and_check (message : string) :
  (getFeedbackClass message = "feedback-neutral"
   <-> includes message "✓" = false
       /\ includes message "🏆" = false
       /\ includes message "⚠️" = false
       /\ includes message "💡" = false
       /\ includes message "💪" = false)
  /\ (includes message "✓" = true ->
      getFeedbackClass message = "feedback-excellent"
      \/ getFeedbackClass message = "feedback-good").
Proof.
  split.
  - split.
    + unfold getFeedbackClass.
      destruct (includes message "✓") eqn:C.
      * destruct (includes message "✓✓" || includes message "🏆"); discriminate.
      * rewrite (double_check_includes_check _ C).
        destruct (includes message "🏆"); [discriminate|].
        destruct (includes message "⚠️"); [discriminate|].
        destruct (includes message "💡"); [discriminate|].
        destruct (includes message "💪"); [discriminate|].
        auto.
    + intros (H1 & H2 & H3 & H4 & H5). now apply unmarked_is_neutral.
  - intros C. unfold getFeedbackClass. rewrite C.
    destruct (includes message "✓✓" || includes message "🏆"); auto.
Qed.

Lemma feedback_neutral_and_check_witness :
  getFeedbackClass "⚠️ Dos trop creux ✓" = "feedback-excellent"
  \/ getFeedbackClass "⚠️ Dos trop creux ✓" = "feedback-good".
Proof.
  apply (proj2 (feedback_neutral_and_check "⚠️ Dos trop creux ✓")). reflexivity.
Defined.

(** *** The two formatters of indicator names *)

Lemma split_underscore_cons (s : string) :
  exists word words, split_underscore s = word :: words.
Proof.
  induction s as [|c rest (w & ws & IH)]; [now exists EmptyString, []|].
  cbn [split_underscore]. destruct (Ascii.eqb c "_").
  - now exists EmptyString, (split_underscore rest).
  - rewrite IH. now exists (String c w), ws.
Qed.

Lemma concat_space_cons (c : ascii) (word : string) (words : list string) :
  String.concat " " (String c word :: words)
  = String c (String.concat " " (word :: words)).
Proof. destruct words; reflexivity. Qed.

Lemma concat_space_empty (word : string) (words : list string) :
  String.concat " " (EmptyString :: word :: words)
  = String " " (String.concat " " (word :: words)).
Proof. reflexivity. Qed.

Lemma upper_keeps_underscore_out (c : ascii) :
  Ascii.eqb c "_" = false -> Ascii.eqb (upper c) "_" = false.
Proof.
  destruct c as [[] [] [] [] [] [] [] []]; vm_compute; congruence.
Qed.

(** On a key of word characters the two ways of capitalizing agree, at the
    start of a word and inside one. *)
Lemma capitalize_split (s : string) :
  word_key s = true ->
  capitalize_words false (underscores_to_spaces s)
  = String.concat " " (List.map upper_first (split_underscore s))
  /\ capitalize_words true (underscores_to_spaces s)
     = String.concat " " match split_underscore s with
                         | word :: words => word :: List.map upper_first words
                         | [] => []
                         end.
Proof.
  unfold word_key.
  induction s as [|c rest IH]; [now split|].
  cbn [every_char]. intros Hw. apply andb_true_iff in Hw. destruct Hw as [Hc Hr].
  destruct (IH Hr) as [IH1 IH2]. clear IH.
  destruct (split_underscore_cons rest) as (w & ws & Hs).
  cbn [underscores_to_spaces split_underscore].
  destruct (Ascii.eqb c "_") eqn:Hu.
  - cbn [capitalize_words]. change (is_word_char " ") with false.
    cbn [andb]. rewrite IH1, Hs. cbn [List.map].
    rewrite concat_space_empty. now split.
  - rewrite Hs in *. cbn [capitalize_words List.map upper_first].
    rewrite Hc. cbn [andb negb]. rewrite IH2.
    rewrite !concat_space_cons. now split.
Qed.

Lemma chart_nameMap_lookup (key : string) :
  key <> "foot_height" -> key <> "shoulder_level" ->
  chart_nameMap !! key = panel_nameMap !! key.
Proof.
  intros H1 H2. unfold chart_nameMap.
  rewrite !lookup_insert_ne by congruence. reflexivity.
Qed.

(** X9. For every indicator key made of ASCII letters, digits and underscores,
    other than foot_height and shoulder_level, the formatter of ResultsPanel
    and the formatter of RadarChart give the same name. *)
Theorem formatters_agree (key : string) :
  word_key key = true ->
  key <> "foot_height" ->
  key <> "shoulder_level" ->
  formatIndicatorName key = chart_formatIndicatorName key.
Proof.
  intros Hw H1 H2. unfold formatIndicatorName, chart_formatIndicatorName, table_or.
  rewrite (chart_nameMap_lookup key H1 H2).
  destruct (capitalize_split key Hw) as [-> _]. reflexivity.
Qed.

Lemma formatters_agree_witness :
  formatIndicatorName "stance_width" = chart_formatIndicatorName "stance_width".
Proof.
  apply (formatters_agree "stance_width"); [reflexivity|discriminate|discriminate].
Defined.

(** The two formatters part on the keys only RadarChart has a name for, and
    on a key with a character that is neither a word character nor an
    underscore. *)
Lemma formatters_part :
  formatIndicatorName "foot_height" = Text "Foot Height"
  /\ chart_formatIndicatorName "foot_height" = Text "Hauteur Pied"
  /\ formatIndicatorName "hip-opening" = Text "Hip-Opening"
  /\ chart_formatIndicatorName "hip-opening" = Text "Hip-opening".
Proof. repeat split; vm_compute; reflexivity. Qed.

End DisplayMore.

(** ** Empty indicators and difficulty badges *)

Section ChartMore.

Import Display DisplayTerms Difficulty.
Local Open Scope string_scope.

(** The chart is the empty notice exactly without indicators: none at all, or
    an empty object. *)
Lemma RadarChart_empty (entries : option (list (string * scalar))) (globalScore : scalar) :
  RadarChart entries globalScore = ChartEmpty
  <-> entries = None \/ entries = Some [].
Proof.
  unfold RadarChart. destruct entries as [[|entry rest]|]; split; intros E;
    auto; try discriminate.
  destruct E as [E|E]; discriminate.
Qed.

(** X11. A response whose indicators object is empty is not shown as
    unavailable: the quality section is rendered and its chart is the empty
    notice; the chart is the empty notice exactly when the indicators are
    absent or empty. *)
Theorem empty_indicators_shown (qa : QualityAnalysis) :
  indicators qa = Some [] ->
  (exists section,
     renderQualityAnalysis (Some qa) = QualityShown section
     /\ radar section = Some ChartEmpty)
  /\ (forall (entries : option (list (string * scalar))) (globalScore : scalar),
        RadarChart entries globalScore = ChartEmpty
        <-> entries = None \/ entries = Some []).
Proof.
  intros E. split; [|exact RadarChart_empty].
  unfold renderQualityAnalysis. rewrite E. eexists. split; reflexivity.
Qed.

Lemma empty_indicators_shown_witness :
  exists section,
    renderQualityAnalysis
      (Some {| indicators := Some [];
               global_score := Number (Fin 0);
               skill_level := None;
               feedback := None;
               priority_indicator := None;
               recommended_exercise := None |})
    = QualityShown section
    /\ radar section = Some ChartEmpty.
Proof.
  apply (proj1 (empty_indicators_shown
                  {| indicators := Some [];
                     global_score := Number (Fin 0);
                     skill_level := None;
                     feedback := None;
                     priority_indicator := None;
                     recommended_exercise := None |} eq_refl)).
Defined.

Lemma colors_lookup (key : string) :
  colors !! key =
  if decide (key = "beginner") then Some "#22c55e"
  else if decide (key = "intermediate") then Some "#3b82f6"
  else if decide (key = "advanced") then Some "#ef4444"
  else None.
Proof.
  unfold colors. simpl list_to_map. rewrite !lookup_insert.
  repeat case_decide; subst; try congruence; reflexivity.
Qed.

(** X12. The colour table and the label table of the difficulty badge have
    entries for the same difficulties, the label of a difficulty is the label
    the results panel gives to the skill level of the same name, and a
    difficulty without entry (that is no inherited member name) gets the grey
    badge and its raw identifier. *)
Theorem difficulty_tables :
  (forall difficulty : string,
     dedicated colors difficulty = dedicated difficulty_labels difficulty)
  /\ (forall difficulty : string,
        getDifficultyLabel difficulty = getSkillLevelLabel difficulty)
  /\ (forall difficulty : string,
        dedicated colors difficulty = false ->
        existsb (String.eqb difficulty) object_prototype_keys = false ->
        getDifficultyColor difficulty = Text "#6b7280"
        /\ getDifficultyLabel difficulty = Text difficulty).
Proof.
  assert (Hsame : forall d, dedicated colors d = dedicated difficulty_labels d).
  { intros d. unfold dedicated. change difficulty_labels with labels.
    rewrite colors_lookup, labels_lookup. repeat case_decide; reflexivity. }
  split; [exact Hsame|]. split; [reflexivity|].
  intros d Hc Hp. pose proof (Hsame d) as Hl. rewrite Hc in Hl.
  unfold getDifficultyColor, getDifficultyLabel, table_or, dedicated in *.
  destruct (colors !! d); [discriminate|].
  destruct (difficulty_labels !! d); [discriminate|].
  rewrite Hp. split; reflexivity.
Qed.

Lemma difficulty_tables_witness :
  getDifficultyColor "expert" = Text "#6b7280"
  /\ getDifficultyLabel "expert" = Text "expert".
Proof.
  destruct difficulty_tables as (_ & _ & H).
  apply (H "expert"); reflexivity.
Defined.

End ChartMore.

(** ** Life cycle of the MediaPipe service *)

Section ServiceFacts.

Import MediaPipeService.
Local Open Scope string_scope.

Lemma below_fresh_not_in (w : World) (e : Event) :
  Forall (fun e' => handle_of e' < fresh w) (history w) ->
  handle_of e = fresh w ->
  ~ In e (history w).
Proof.
  intros Hall He Hin. rewrite List.Forall_forall in Hall.
  specialize (Hall e Hin). lia.
Qed.

Lemma below_weaken (n : nat) (events : list Event) :
  Forall (fun e => handle_of e < n) events ->
  Forall (fun e => handle_of e < S n) events.
Proof. apply List.Forall_impl. intros e He. lia. Qed.

Ltac in_cases :=
  repeat match goal with
         | H : In _ (_ :: _) |- _ => destruct H as [H|H]; [try discriminate H|]
         | H : _ = _ \/ _ |- _ => destruct H as [H|H]; [try discriminate H|]
         | H : Some _ = Some _ |- _ => injection H as H; subst
         | H : Some _ = None |- _ => discriminate H
         | H : None = Some _ |- _ => discriminate H
         end.

Lemma initialize_keeps (w : World) :
  alive w -> sound (history w) ->
  alive (fst (initialize w)) /\ sound (history (fst (initialize w))).
Proof.
  intros (Hall & Hp & Hc) Hs.
  pose proof (below_fresh_not_in w (PoseCreated (fresh w)) Hall eq_refl) as Hn1.
  pose proof (below_fresh_not_in w (PoseClosed (fresh w)) Hall eq_refl) as Hn2.
  unfold initialize, alive. cbn [fst service fresh history pose camera].
  split; [split; [|split]|].
  - repeat (constructor; [cbn; lia|]). now apply below_weaken.
  - intros p [= <-]. split; [cbn; auto|]. intros Hin. in_cases. auto.
  - intros c Ec. destruct (Hc c Ec) as [Hin Hnot].
    split; [cbn; auto|]. intros Hin'. in_cases. auto.
  - cbn [sound]. repeat split; auto; try (cbn; now auto);
      intros Hin; in_cases; auto.
Qed.

Lemma processImage_keeps (accepted : bool) (w : World) :
  alive w -> sound (history w) ->
  alive (fst (processImage accepted w))
  /\ sound (history (fst (processImage accepted w))).
Proof.
  intros Ha Hs. unfold processImage.
  destruct (pose (service w)) as [p|] eqn:Ep; [|now split].
  destruct Ha as (Hall & Hp & Hc).
  destruct (Hp p Ep) as [Hin Hnot].
  unfold alive. cbn [fst service fresh history].
  split; [split; [|split]|].
  - constructor; [|exact Hall]. rewrite List.Forall_forall in Hall.
    apply (Hall _ Hin).
  - intros q Eq. rewrite Ep in Eq. injection Eq as <-.
    split; [cbn; auto|]. intros Hin'. in_cases. auto.
  - intros c Ec. destruct (Hc c Ec) as [Hin' Hnot'].
    split; [cbn; auto|]. intros Hin''. in_cases. auto.
  - cbn [sound]. auto.
Qed.

Lemma startCamera_keeps (started : bool) (w : World) :
  alive w -> sound (history w) ->
  alive (fst (startCamera started w))
  /\ sound (history (fst (startCamera started w))).
Proof.
  intros Ha Hs. unfold startCamera.
  destruct (pose (service w)) as [p|] eqn:Ep; [|now split].
  destruct Ha as (Hall & Hp & Hc).
  pose proof (below_fresh_not_in w (CameraCreated (fresh w)) Hall eq_refl) as Hn1.
  pose proof (below_fresh_not_in w (CameraStopped (fresh w)) Hall eq_refl) as Hn2.
  unfold alive. cbn [fst service fresh history pose camera].
  split; [split; [|split]|].
  - repeat (constructor; [cbn; lia|]). now apply below_weaken.
  - intros q [= <-].
    destruct (Hp p Ep) as [Hin Hnot].
    split; [cbn; auto|]. intros Hin'. in_cases. auto.
  - intros c [= <-]. split; [cbn; auto|]. intros Hin. in_cases. auto.
  - cbn [sound]. repeat split; auto; try (cbn; now auto);
      intros Hin; in_cases; auto.
Qed.

Lemma stopCamera_keeps (w : World) :
  alive w -> sound (history w) ->
  alive (fst (stopCamera w)) /\ sound (history (fst (stopCamera w))).
Proof.
  intros Ha Hs. unfold stopCamera.
  destruct (camera (service w)) as [c|] eqn:Ec; [|now split].
  destruct Ha as (Hall & Hp & Hc).
  destruct (Hc c Ec) as [Hin Hnot].
  unfold alive. cbn [fst service fresh history pose camera].
  split; [split; [|split]|].
  - constructor; [|exact Hall]. rewrite List.Forall_forall in Hall.
    apply (Hall _ Hin).
  - intros p Ep. destruct (Hp p Ep) as [Hin' Hnot'].
    split; [cbn; auto|]. intros Hin''. in_cases. auto.
  - intros c' Ec'. discriminate.
  - cbn [sound]. auto.
Qed.

Lemma cleanup_keeps (w : World) :
  alive w -> sound (history w) ->
  alive (fst (cleanup w)) /\ sound (history (fst (cleanup w))).
Proof.
  intros Ha Hs. destruct (stopCamera_keeps w Ha Hs) as [Ha1 Hs1].
  unfold cleanup. set (w1 := fst (stopCamera w)) in *.
  destruct (pose (service w1)) as [p|] eqn:Ep; [|now split].
  destruct Ha1 as (Hall & Hp & Hc).
  destruct (Hp p Ep) as [Hin Hnot].
  unfold alive. cbn [fst service fresh history pose camera].
  split; [split; [|split]|].
  - constructor; [|exact Hall]. rewrite List.Forall_forall in Hall.
    apply (Hall _ Hin).
  - intros q Eq. discriminate.
  - intros c Ec. destruct (Hc c Ec) as [Hin' Hnot'].
    split; [cbn; auto|]. intros Hin''. in_cases. auto.
  - cbn [sound]. auto.
Qed.

Lemma step_keeps (call : Call) (w : World) :
  alive w -> sound (history w) ->
  alive (fst (step call w)) /\ sound (history (fst (step call w))).
Proof.
  destruct call; cbn [step].
  - apply initialize_keeps.
  - apply processImage_keeps.
  - apply startCamera_keeps.
  - apply stopCamera_keeps.
  - apply cleanup_keeps.
Qed.

Lemma run_keeps (calls : list Call) :
  forall w : World,
    alive w -> sound (history w) ->
    alive (run calls w) /\ sound (history (run calls w)).
Proof.
  induction calls as [|call calls IH]; intros w Ha Hs; [now split|].
  cbn [run fold_left]. destruct (step_keeps call w Ha Hs) as [Ha' Hs'].
  now apply IH.
Qed.

Lemma initial_alive : alive initial /\ sound (history initial).
Proof.
  unfold alive, initial. cbn. repeat split; try constructor; intros; discriminate.
Qed.

Lemma run_initial_keeps (calls : list Call) :
  alive (run calls initial) /\ sound (history (run calls initial)).
Proof.
  destruct initial_alive as [Ha Hs]. apply (run_keeps calls initial Ha Hs).
Qed.

(** X13. Whatever methods are called on a new service, in whatever order and
    whether or not MediaPipe accepts the calls: every call on a pose or a
    camera is made on an object created before and not released before, and
    no pose is closed twice and no camera stopped twice. *)
Theorem service_history_sound (calls : list Call) :
  sound (history (run calls initial))
  /\ alive (run calls initial).
Proof.
  destruct (run_initial_keeps calls). now split.
Qed.

(** X14. Before [initialize] and after [cleanup], [processImage] and
    [startCamera] throw 'MediaPipe non initialisé' and leave everything as it
    is; right after [initialize] an accepted image goes through. *)
Theorem service_needs_a_pose (w : World) (accepted started : bool) :
  processImage accepted initial = (initial, Thrown "MediaPipe non initialisé")
  /\ startCamera started initial = (initial, Thrown "MediaPipe non initialisé")
  /\ processImage accepted (fst (cleanup w))
     = (fst (cleanup w), Thrown "MediaPipe non initialisé")
  /\ startCamera started (fst (cleanup w))
     = (fst (cleanup w), Thrown "MediaPipe non initialisé")
  /\ snd (processImage true (fst (initialize w))) = Returned
  /\ snd (startCamera true (fst (initialize w))) = Returned.
Proof.
  assert (Hc : pose (service (fst (cleanup w))) = None).
  { unfold cleanup.
    destruct (pose (service (fst (stopCamera w)))) eqn:E; [reflexivity|exact E]. }
  unfold processImage, startCamera. rewrite Hc. repeat split.
Qed.

Lemma stopCamera_pose (w : World) :
  pose (service (fst (stopCamera w))) = pose (service w).
Proof. unfold stopCamera. now destruct (camera (service w)). Qed.

Lemma stopCamera_camera (w : World) :
  camera (service (fst (stopCamera w))) = None.
Proof. unfold stopCamera. now destruct (camera (service w)) eqn:E. Qed.

Lemma stopCamera_without_camera (w : World) :
  camera (service w) = None -> stopCamera w = (w, Returned).
Proof. intros E. unfold stopCamera. now rewrite E. Qed.

(** X15. [cleanup] leaves the service without pose and without camera, stops
    the camera and closes the pose the service held, and a second [cleanup]
    changes nothing and calls nothing. *)
Theorem cleanup_releases (w : World) :
  pose (service (fst (cleanup w))) = None
  /\ camera (service (fst (cleanup w))) = None
  /\ (forall c, camera (service w) = Some c ->
        In (CameraStopped c) (history (fst (cleanup w))))
  /\ (forall p, pose (service w) = Some p ->
        In (PoseClosed p) (history (fst (cleanup w))))
  /\ cleanup (fst (cleanup w)) = (fst (cleanup w), Returned).
Proof.
  assert (Hp : pose (service (fst (cleanup w))) = None).
  { unfold cleanup.
    destruct (pose (service (fst (stopCamera w)))) eqn:E; [reflexivity|exact E]. }
  assert (Hc : camera (service (fst (cleanup w))) = None).
  { unfold cleanup. pose proof (stopCamera_camera w) as E.
    destruct (pose (service (fst (stopCamera w)))); [exact E|exact E]. }
  split; [exact Hp|]. split; [exact Hc|]. split; [|split].
  - intros c Ec. unfold cleanup, stopCamera. rewrite Ec. cbn.
    destruct (pose (service w)); cbn; auto.
  - intros p Ep. unfold cleanup. rewrite stopCamera_pose, Ep. cbn. auto.
  - set (w' := fst (cleanup w)) in *. unfold cleanup.
    rewrite (stopCamera_without_camera w' Hc). cbn [fst]. rewrite Hp.
    reflexivity.
Qed.

Lemma step_dropped (p : nat) (call : Call) (w : World) :
  dropped p w -> dropped p (fst (step call w)).
Proof.
  intros (Hne & Hlt & Hnot). destruct call; cbn [step].
  - unfold initialize, dropped. cbn. split; [intros [= E]; lia|].
    split; [lia|]. intros Hin. in_cases. auto.
  - unfold processImage. destruct (pose (service w)) eqn:E; cbn.
    + unfold dropped. cbn. rewrite E. split; [exact Hne|].
      split; [exact Hlt|]. intros Hin. in_cases. auto.
    + unfold dropped. rewrite E. auto.
  - unfold startCamera. destruct (pose (service w)) eqn:E; cbn.
    + unfold dropped. cbn. split; [exact Hne|].
      split; [lia|]. intros Hin. in_cases. auto.
    + unfold dropped. rewrite E. auto.
  - unfold stopCamera. destruct (camera (service w)) eqn:E; cbn.
    + unfold dropped. cbn. split; [exact Hne|].
      split; [exact Hlt|]. intros Hin. in_cases. auto.
    + unfold dropped. auto.
  - assert (Hd : dropped p (fst (stopCamera w))).
    { unfold stopCamera. destruct (camera (service w)) eqn:E; cbn.
      - unfold dropped. cbn. split; [exact Hne|].
        split; [exact Hlt|]. intros Hin. in_cases. auto.
      - unfold dropped. auto. }
    unfold cleanup. destruct Hd as (Hne1 & Hlt1 & Hnot1).
    destruct (pose (service (fst (stopCamera w)))) as [q|] eqn:E; cbn.
    + unfold dropped. cbn. split; [discriminate|]. split; [exact Hlt1|].
      intros Hin. destruct Hin as [Hin|Hin]; [|auto].
      injection Hin as ->. auto.
    + unfold dropped. rewrite E. auto.
Qed.

Lemma run_dropped (p : nat) (calls : list Call) :
  forall w : World, dropped p w -> dropped p (run calls w).
Proof.
  induction calls as [|call calls IH]; intros w Hd; [exact Hd|].
  cbn [run fold_left]. apply IH. now apply step_dropped.
Qed.

(** X16. A second [initialize] drops the pose the service holds without
    closing it, and no later call closes it: the dropped pose stays open
    whatever is called afterwards. *)
Theorem replaced_pose_stays_open (w : World) (p : nat) (calls : list Call) :
  alive w ->
  pose (service w) = Some p ->
  pose (service (fst (initialize w))) <> Some p
  /\ ~ In (PoseClosed p) (history (run calls (fst (initialize w)))).
Proof.
  intros (Hall & Hp & _) Ep. destruct (Hp p Ep) as [Hin Hnot].
  assert (Hlt : p < fresh w).
  { rewrite List.Forall_forall in Hall. apply (Hall _ Hin). }
  assert (Hd : dropped p (fst (initialize w))).
  { unfold dropped, initialize. cbn. split; [intros [= E]; lia|].
    split; [lia|]. intros Hin'. in_cases. auto. }
  split; [apply Hd|]. apply (run_dropped p calls _ Hd).
Qed.

End ServiceFacts.

Section ServiceExamples.

Import MediaPipeService.

Lemma replaced_pose_stays_open_witness :
  ~ In (PoseClosed 0)
       (history (run [Cleanup] (fst (initialize (run [Initialize] initial))))).
Proof.
  apply (proj2 (replaced_pose_stays_open (run [Initialize] initial) 0 [Cleanup]
                  (proj1 (run_initial_keeps [Initialize])) eq_refl)).
Defined.

End ServiceExamples.

(** ** Tokens, refresh and protected routes *)

Section ApiFacts.

Import Api.
Local Open Scope string_scope.

Context `{Backend}.

(** The three ways a call of [api] can go. *)
Lemma api_cases (c : Client) (request : Request) :
  let original := request_interceptor (storage c) request in
  exists (c' : Client) (result : Result),
    api c request = (c', result)
    /\ ((sent c' = original :: sent c
         /\ storage c' = storage c
         /\ location c' = location c)
        \/ (exists refreshToken reply,
              getItem (storage c) "refresh_token" = Some refreshToken
              /\ sent c' = refresh_request refreshToken :: original :: sent c
              /\ storage c' = delete "refresh_token" (delete "access_token" (storage c))
              /\ location c' = Some "/login"
              /\ result = Rejected reply)
        \/ (exists refreshToken token,
              getItem (storage c) "refresh_token" = Some refreshToken
              /\ sent c' = retried (storage c) original token
                           :: refresh_request refreshToken :: original :: sent c
              /\ storage c' = <["access_token" := token]> (storage c)
              /\ location c' = location c)).
Proof.
  intros original. unfold api, transmit. fold original.
  destruct (serve (server c) original) as [s1 reply] eqn:E1.
  destruct (accepted reply) as [data|].
  { eexists. eexists. split; [reflexivity|]. left. cbn. auto. }
  destruct (unauthorized reply && negb (retry original)).
  2:{ eexists. eexists. split; [reflexivity|]. left. cbn. auto. }
  cbn [storage server location sent].
  destruct (getItem (storage c) "refresh_token") as [refreshToken|] eqn:Er.
  2:{ eexists. eexists. split; [reflexivity|]. left. cbn. auto. }
  destruct (String.eqb refreshToken "").
  { eexists. eexists. split; [reflexivity|]. left. cbn. auto. }
  destruct (serve s1 (refresh_request refreshToken)) as [s2 refreshed] eqn:E2.
  destruct (accepted refreshed) as [data|].
  - unfold api_marked, transmit. cbn [storage server location sent].
    destruct (serve s2 _) as [s3 last] eqn:E3.
    destruct (accepted last);
      (eexists; eexists; split; [reflexivity|]; right; right;
       exists refreshToken, (field_text (data_access_token data)); cbn; auto).
  - eexists. eexists. split; [reflexivity|]. right. left.
    exists refreshToken, refreshed. cbn. auto.
Qed.

(** X17. One call of [api] sends the request and stops there, or sends it,
    then one refresh, and stops there, or sends it, then one refresh, then
    the request once more, marked as retried and with the refreshed token,
    now the stored access token, as bearer: never more than three requests,
    never more than one refresh. *)
Theorem api_sends_at_most_three (c : Client) (request : Request) :
  let original := request_interceptor (storage c) request in
  let after := fst (api c request) in
  sent after = original :: sent c
  \/ (exists refreshToken,
        sent after = refresh_request refreshToken :: original :: sent c)
  \/ (exists refreshToken token,
        sent after = retried (storage c) original token
                     :: refresh_request refreshToken :: original :: sent c
        /\ retry (retried (storage c) original token) = true
        /\ authorization (retried (storage c) original token)
           = Some ("Bearer " ++ token)
        /\ storage after !! "access_token" = Some token).
Proof.
  intros original after. subst after.
  destruct (api_cases c request) as (c' & result & E & Hcase). rewrite E. cbn [fst].
  destruct Hcase as [(Hs & _)|[(rt & reply & _ & Hs & _)
                              |(rt & token & _ & Hs & Hst & _)]].
  - now left.
  - right. left. now exists rt.
  - right. right. exists rt, token. split; [exact Hs|].
    rewrite Hst, lookup_insert_eq.
    unfold retried, request_interceptor, getItem. rewrite lookup_insert_eq.
    destruct (String.eqb token ""); cbn; auto.
Qed.


(** [logout] removes the tokens from whatever the call left. *)
Lemma logout_storage (c : Client) :
  storage (logout c)
  = delete "refresh_token" (delete "access_token" (storage (fst (api c
      {| path := "/auth/logout";
         authorization := None;
         retry := false;
         body := NoBody |})))).
Proof.
  unfold logout. destruct (api c _) as [c1 result]. reflexivity.
Qed.

(** X19. After [logout], whatever the server answered and whatever was
    stored: both tokens are gone, the user is not authenticated, a protected
    route leads to the login page, and every other key of the storage is as
    it was. *)
Theorem logout_clears_tokens (c : Client) :
  storage (logout c) !! "access_token" = None
  /\ storage (logout c) !! "refresh_token" = None
  /\ isAuthenticated (logout c) = false
  /\ ProtectedRoute (logout c) = NavigateTo "/login"
  /\ (forall key : string,
        key <> "access_token" -> key <> "refresh_token" ->
        storage (logout c) !! key = storage c !! key).
Proof.
  rewrite !logout_storage.
  set (request := {| path := "/auth/logout"; authorization := None;
                     retry := false; body := NoBody |}).
  assert (Ha : delete "refresh_token" (delete "access_token"
                 (storage (fst (api c request)))) !! "access_token" = None).
  { rewrite lookup_delete_ne by discriminate. apply lookup_delete_eq. }
  split; [exact Ha|]. split; [apply lookup_delete_eq|].
  unfold ProtectedRoute, isAuthenticated, getItem. rewrite logout_storage.
  fold request. rewrite Ha. cbn. split; [reflexivity|]. split; [reflexivity|].
  intros key H1 H2. rewrite !lookup_delete_ne by congruence.
  destruct (api_cases c request) as (c' & result & E & Hcase). rewrite E. cbn [fst].
  destruct Hcase as [(_ & Hst & _)|[(rt & reply & _ & _ & Hst & _)
                                   |(rt & token & _ & _ & Hst & _)]];
    rewrite Hst.
  - reflexivity.
  - rewrite !lookup_delete_ne by congruence. reflexivity.
  - rewrite lookup_insert_ne by congruence. reflexivity.
Qed.

(** Storing the tokens of an answer with a truthy access token. *)
Lemma store_tokens_access (store : gmap string string) (data : Data) (t : Tokens) :
  tokens data = Some t ->
  truthy_field (access_token t) = true ->
  store_tokens store data !! "access_token" = Some (field_text (access_token t)).
Proof.
  intros Et Ha. unfold store_tokens. rewrite Et, Ha.
  destruct (truthy_field (refresh_token t)).
  - rewrite lookup_insert_ne by discriminate. apply lookup_insert_eq.
  - apply lookup_insert_eq.
Qed.

Lemma truthy_field_text (f : Field) :
  truthy_field f = true -> truthy_item (Some (field_text f)) = true.
Proof. destruct f; cbn; congruence. Qed.

(** X20. After a [login] that resolves with tokens whose access token is a
    non-empty string, that token is the stored access token, the user is
    authenticated and a protected route shows its content; a [logout] after
    it leaves the user unauthenticated again. *)
Theorem login_authenticates (c c' : Client) (email password : string)
    (data : Data) (t : Tokens) :
  login c email password = (c', Resolved data) ->
  tokens data = Some t ->
  truthy_field (access_token t) = true ->
  storage c' !! "access_token" = Some (field_text (access_token t))
  /\ isAuthenticated c' = true
  /\ ProtectedRoute c' = Children
  /\ isAuthenticated (logout c') = false.
Proof.
  intros El Et Ha. unfold login in El.
  destruct (api c _) as [c1 [d|reply]]; [|discriminate].
  injection El as Ec Ed. rewrite Ed in Ec. clear Ed d. subst c'.
  assert (Hs : storage (with_storage c1 (store_tokens (storage c1) data))
               !! "access_token" = Some (field_text (access_token t))).
  { cbn. now apply store_tokens_access. }
  split; [exact Hs|].
  unfold ProtectedRoute, isAuthenticated, getItem. rewrite Hs.
  rewrite (truthy_field_text _ Ha).
  split; [reflexivity|]. split; [reflexivity|].
  fold (getItem (storage (logout (with_storage c1 (store_tokens (storage c1) data))))
                "access_token").
  fold (isAuthenticated (logout (with_storage c1 (store_tokens (storage c1) data)))).
  unfold isAuthenticated, getItem. rewrite logout_storage.
  rewrite lookup_delete_ne by discriminate. rewrite lookup_delete_eq. reflexivity.
Qed.

End ApiFacts.

Section ApiExamples.

Import Api SampleServer.
Local Open Scope string_scope.

Lemma login_authenticates_witness :
  exists c' data,
    @login backend blank "ana@example.org" "Test1234" = (c', Resolved data)
    /\ isAuthenticated c' = true
    /\ ProtectedRoute c' = Children.
Proof.
  eexists. eexists.
  assert (E : @login backend blank "ana@example.org" "Test1234"
              = (_, Resolved {| success := true;
                                message := Missing;
                                pose := Missing;
                                tokens := Some {| access_token := Str "a1";
                                                  refresh_token := Str "r1" |};
                                data_access_token := Missing |}))
    by reflexivity.
  split; [exact E|].
  destruct (@login_authenticates backend _ _ _ _ _ _ E eq_refl eq_refl)
    as (_ & Ha & Hp & _).
  split; [exact Ha|exact Hp].
Defined.

End ApiExamples.

(** ** The registration form and the analysis page *)

Section PagesFacts.

Import Landmarks Api.
Local Open Scope string_scope.

Context `{Backend}.

(** The requests a call added, when those sent after it are known. *)
Lemma added_app (c c' : Client) (new : list Request) :
  sent c' = (new ++ sent c)%list -> added c c' = new.
Proof.
  intros E. unfold added. rewrite E, length_app.
  replace (length new + length (sent c) - length (sent c))%nat
    with (length new) by lia.
  apply take_app_length.
Qed.

(** The request interceptor keeps the body of a request. *)
Lemma request_interceptor_body (store : gmap string string) (request : Request) :
  body (request_interceptor store request) = body request.
Proof.
  unfold request_interceptor.
  destruct (getItem store "access_token") as [token|]; [|reflexivity].
  now destruct (String.eqb token "").
Qed.

(** A call of [api] adds between one and three requests; each carries the
    body of the call, or none (the refresh). *)
Lemma api_sent (c : Client) (request : Request) :
  exists new : list Request,
    sent (fst (api c request)) = (new ++ sent c)%list
    /\ new <> []
    /\ (length new <= 3)%nat
    /\ Forall (fun r => body r = body request \/ body r = NoBody) new.
Proof.
  destruct (api_cases c request) as (c' & result & E & Hcase). rewrite E. cbn [fst].
  pose proof (request_interceptor_body (storage c) request) as Hb.
  destruct Hcase as [(Hs & _)|[(rt & reply & _ & Hs & _)
                              |(rt & token & _ & Hs & _)]].
  - exists [request_interceptor (storage c) request].
    split; [exact Hs|]. split; [discriminate|]. split; [cbn; lia|].
    constructor; [now left|constructor].
  - exists [refresh_request rt; request_interceptor (storage c) request].
    split; [exact Hs|]. split; [discriminate|]. split; [cbn; lia|].
    constructor; [now right|constructor; [now left|constructor]].
  - exists [retried (storage c) (request_interceptor (storage c) request) token;
            refresh_request rt; request_interceptor (storage c) request].
    split; [exact Hs|]. split; [discriminate|]. split; [cbn; lia|].
    constructor; [|constructor; [now right|constructor; [now left|constructor]]].
    left. unfold retried. rewrite request_interceptor_body. exact Hb.
Qed.


(** What [validateForm] has checked when it returns [true]. *)
Lemma validateForm_accepted (form : Register.FormData) :
  Register.validateForm form = None ->
  Register.password form = Register.confirmPassword form
  /\ (8 <= Register.js_length (Register.password form))%nat
  /\ Register.hasUpperCase (Register.password form) = true
  /\ Register.hasLowerCase (Register.password form) = true
  /\ Register.hasNumber (Register.password form) = true.
Proof.
  unfold Register.validateForm.
  destruct (String.eqb_spec (Register.password form) (Register.confirmPassword form))
    as [Ep|]; cbn [negb]; [|discriminate].
  destruct (Nat.ltb_spec (Register.js_length (Register.password form)) 8);
    [discriminate|].
  destruct (Register.hasUpperCase _), (Register.hasLowerCase _),
    (Register.hasNumber _); cbn; try discriminate.
  auto.
Qed.


(** X21. Whatever the server answers, [handleSubmit] sends a request only
    for a form that [validateForm] lets through: every request it adds comes
    from a form whose password equals its confirmation, counts at least eight
    UTF-16 units and holds an upper-case letter, a lower-case letter and a
    digit; the request carries the four fields of the form as they are, or it
    is the refresh of the interceptor and carries nothing. *)
Theorem registration_needs_valid_form (c : Client) (form : Register.FormData)
    (request : Request) :
  In request (added c (fst (Register.handleSubmit c form))) ->
  (body request = Registration (Register.email form) (Register.username form)
                    (Register.password form) (Register.skillLevel form)
   \/ body request = NoBody)
  /\ Register.password form = Register.confirmPassword form
  /\ (8 <= Register.js_length (Register.password form))%nat
  /\ Register.hasUpperCase (Register.password form) = true
  /\ Register.hasLowerCase (Register.password form) = true
  /\ Register.hasNumber (Register.password form) = true.
Proof.
  unfold Register.handleSubmit.
  destruct (Register.validateForm form) as [message|] eqn:Ev.
  - cbn [fst]. rewrite (added_app c c []) by reflexivity. intros [].
  - intros Hin. split; [|now apply validateForm_accepted].
    unfold register in Hin.
    destruct (api_sent c {| path := "/auth/register";
                            authorization := None;
                            retry := false;
                            body := Registration (Register.email form)
                                      (Register.username form)
                                      (Register.password form)
                                      (Register.skillLevel form) |})
      as (new & Hs & _ & _ & Hall).
    destruct (api c _) as [c1 result]. cbn [fst] in Hs.
    rewrite List.Forall_forall in Hall.
    destruct result as [data|reply]; [destruct (success data)|];
      cbn [fst] in Hin; rewrite (added_app c c1 new Hs) in Hin;
      exact (Hall request Hin).
Qed.


(** The page after a rejected analysis: the mark is off and the results are
    kept. *)
Lemma failed_page (page : Home.Page) (reply : Reply) :
  Home.isAnalyzing (Home.failed page reply) = false
  /\ Home.analysisResults (Home.failed page reply) = Home.analysisResults page
  /\ ((unauthorized reply = true
       /\ Home.navigated (Home.failed page reply) = Some "/login"
       /\ Home.error (Home.failed page reply) = None)
      \/ (unauthorized reply = false
          /\ Home.navigated (Home.failed page reply) = Home.navigated page
          /\ exists message, Home.error (Home.failed page reply) = Some message)).
Proof.
  unfold Home.failed. destruct (unauthorized reply); cbn.
  - split; [reflexivity|]. split; [reflexivity|]. left. auto.
  - split; [reflexivity|]. split; [reflexivity|]. right.
    split; [reflexivity|]. split; [reflexivity|]. eexists. reflexivity.
Qed.

(** X23. What the webcam handler forwards and what the analysis page makes
    of it.  A payload is forwarded only for a frame with a detection, sampled
    when the frame count read is a multiple of thirty, and it holds as many
    landmarks as were detected.  When the detection holds no landmark (an
    empty array passes the test of the webcam handler), the analysis page
    drops the payload: no request, no change of the page.  For a detection
    with landmarks the page sends at least one request and ends with the
    analysis mark off. *)
Theorem webcam_payload_on_the_page (env : Capture.Env) (seen : nat)
    (st : Webcam.WebcamState) (results : Capture.Results)
    (payload : Capture.Payload) (authenticated : bool) (c : Client)
    (page : Home.Page) :
  snd (Webcam.handleMediaPipeResults env seen st results) = Some payload ->
  exists detected : list Landmark,
    Capture.poseLandmarks results = Some detected
    /\ (seen mod 30 = 0)%nat
    /\ length (Capture.landmarks payload) = length detected
    /\ (detected = [] ->
        Home.handleMediaPipeResults authenticated c page payload = (c, page))
    /\ (detected <> [] ->
        Home.isAnalyzing
          (snd (Home.handleMediaPipeResults authenticated c page payload)) = false
        /\ (length (sent c)
            < length (sent (fst (Home.handleMediaPipeResults authenticated c page
                                   payload))))%nat).
Proof.
  unfold Webcam.handleMediaPipeResults.
  destruct (Capture.poseLandmarks results) as [detected|]; [|discriminate].
  destruct (Nat.eqb_spec (seen mod 30) 0) as [Hm|]; [|discriminate].
  cbn [snd]. destruct (Capture.onResults env); [|discriminate].
  intros [= <-]. exists detected. cbn [Capture.landmarks].
  split; [reflexivity|]. split; [exact Hm|].
  unfold formatLandmarksForBackend. split; [apply length_map|].
  unfold Home.handleMediaPipeResults. cbn [Capture.landmarks].
  destruct detected as [|l ls]; cbn [List.map].
  { split; [reflexivity|]. intros Hd. now destruct Hd. }
  split; [discriminate|]. intros _.
  set (found := _ :: List.map _ ls).
  assert (Hlen : forall (c0 : Client) (request : Request),
             (length (sent c0) < length (sent (fst (api c0 request))))%nat).
  { intros c0 request. destruct (api_sent c0 request) as (new & Hs & Hn & _).
    rewrite Hs, length_app. destruct new; [contradiction|cbn; lia]. }
  destruct authenticated.
  - unfold analyzeComplete.
    pose proof (Hlen c {| path := "/complete-analysis"; authorization := None;
                          retry := false;
                          body := CompleteAnalysis found None |}) as H1.
    destruct (api c _) as [c1 [data|reply]]; cbn [fst snd] in *.
    + split; [reflexivity|exact H1].
    + split; [apply failed_page|exact H1].
  - unfold classifyPose, analyzePoseQuality.
    pose proof (Hlen c {| path := "/classify"; authorization := None;
                          retry := false;
                          body := Classification found |}) as H1.
    destruct (api c _) as [c1 [classification|reply]]; cbn [fst snd] in *.
    + destruct (success classification).
      * pose proof (Hlen c1 {| path := "/analyze"; authorization := None;
                               retry := false;
                               body := QualityAnalysis found (pose classification)
                                         "intermediate" |}) as H2.
        destruct (api c1 _) as [c2 [quality|reply]]; cbn [fst snd] in *.
        -- split; [reflexivity|lia].
        -- split; [apply failed_page|lia].
      * split; [reflexivity|exact H1].
    + split; [apply failed_page|exact H1].
Qed.

(** X24. The requests of one analysis.  Requests are sent only for a
    payload with landmarks.  Besides the refresh of the interceptor, a
    signed-in page sends the complete analysis only, without user level, at
    most three requests in all; a page that is not signed in sends only the
    classification and the quality analysis, the latter with the level
    'intermediate', at most six requests in all.  Every such request holds
    the landmarks of the payload. *)
Theorem analysis_requests (authenticated : bool) (c : Client) (page : Home.Page)
    (payload : Capture.Payload) (request : Request) :
  let after := fst (Home.handleMediaPipeResults authenticated c page payload) in
  In request (added c after) ->
  Capture.landmarks payload <> []
  /\ (length (added c after) <= if authenticated then 3 else 6)%nat
  /\ (body request = NoBody
      \/ (authenticated = true
          /\ body request = CompleteAnalysis (Capture.landmarks payload) None)
      \/ (authenticated = false
          /\ (body request = Classification (Capture.landmarks payload)
              \/ exists name,
                   body request = QualityAnalysis (Capture.landmarks payload) name
                                    "intermediate"))).
Proof.
  unfold Home.handleMediaPipeResults.
  destruct (Capture.landmarks payload) as [|l ls] eqn:El.
  { cbn [fst]. rewrite (added_app c c []) by reflexivity. intros []. }
  set (found := l :: ls). cbn zeta. intros Hin. split; [discriminate|].
  destruct authenticated.
  - unfold analyzeComplete in *.
    destruct (api_sent c {| path := "/complete-analysis"; authorization := None;
                            retry := false;
                            body := CompleteAnalysis found None |})
      as (new & Hs & _ & Hlen & Hall).
    destruct (api c _) as [c1 result]. cbn [fst] in Hs.
    rewrite List.Forall_forall in Hall.
    destruct result; cbn [fst] in *; rewrite (added_app c c1 new Hs) in *;
      (split; [exact Hlen|]);
      (destruct (Hall request Hin) as [Hb|Hb]; [right; left|left]; auto).
  - unfold classifyPose, analyzePoseQuality in *.
    destruct (api_sent c {| path := "/classify"; authorization := None;
                            retry := false;
                            body := Classification found |})
      as (new & Hs & _ & Hlen & Hall).
    rewrite List.Forall_forall in Hall.
    destruct (api c _) as [c1 [classification|reply]]; cbn [fst] in Hs.
    2:{ cbn [fst] in *. rewrite (added_app c c1 new Hs) in *.
        split; [lia|].
        destruct (Hall request Hin) as [Hb|Hb]; [right; right|left]; auto. }
    destruct (success classification).
    2:{ cbn [fst] in *. rewrite (added_app c c1 new Hs) in *.
        split; [lia|].
        destruct (Hall request Hin) as [Hb|Hb]; [right; right|left]; auto. }
    destruct (api_sent c1 {| path := "/analyze"; authorization := None;
                             retry := false;
                             body := QualityAnalysis found (pose classification)
                                       "intermediate" |})
      as (new2 & Hs2 & _ & Hlen2 & Hall2).
    rewrite List.Forall_forall in Hall2.
    destruct (api c1 _) as [c2 result2]. cbn [fst] in Hs2.
    assert (Ha : added c c2 = (new2 ++ new)%list).
    { apply added_app. rewrite Hs2, Hs. apply app_assoc. }
    assert (Hin2 : In request (new2 ++ new)%list
                   /\ (length (added c (fst (match result2 with
                                             | Resolved quality =>
                                                 (c2, Home.analysed page
                                                        (Some (Home.Combined
                                                                 classification
                                                                 quality)))
                                             | Rejected reply =>
                                                 (c2, Home.failed page reply)
                                             end))) <= 6)%nat).
    { destruct result2; cbn [fst] in *; rewrite Ha in *;
        (split; [exact Hin|rewrite length_app; lia]). }
    clear Hin. destruct Hin2 as [Hin Hsix]. split; [exact Hsix|].
    apply in_app_or in Hin. destruct Hin as [Hin|Hin].
    + destruct (Hall2 request Hin) as [Hb|Hb]; [right; right|left]; auto.
      split; [reflexivity|]. right. now exists (pose classification).
    + destruct (Hall request Hin) as [Hb|Hb]; [right; right|left]; auto.
Qed.


End PagesFacts.

Section PagesExamples.

Import Landmarks Api SampleServer.
Local Open Scope string_scope.

Lemma registration_needs_valid_form_witness :
  Register.hasUpperCase "Test1234" = true
  /\ Register.hasNumber "Test1234" = true.
Proof.
  destruct (@registration_needs_valid_form backend blank
              {| Register.username := "ana";
                 Register.email := "ana@example.org";
                 Register.password := "Test1234";
                 Register.confirmPassword := "Test1234";
                 Register.skillLevel := "beginner" |}
              {| path := "/auth/register";
                 authorization := None;
                 retry := false;
                 body := Registration "ana@example.org" "ana" "Test1234" "beginner" |})
    as (_ & _ & _ & Hu & _ & Hn).
  - left. reflexivity.
  - split; [exact Hu|exact Hn].
Defined.

Lemma webcam_payload_on_the_page_witness :
  exists detected : list Landmark,
    Capture.poseLandmarks Capture.one_landmark = Some detected
    /\ length detected = 1%nat.
Proof.
  destruct (@webcam_payload_on_the_page backend (Capture.at_clock 0) 0
              {| Webcam.status := ""; Webcam.frameCount := 0 |}
              Capture.one_landmark
              {| Capture.landmarks := formatLandmarksForBackend [origin];
                 Capture.timestamp := 0 |}
              false blank
              {| Home.analysisResults := None;
                 Home.isAnalyzing := false;
                 Home.error := None;
                 Home.navigated := None |})
    as (detected & Hd & _ & Hlen & _).
  - reflexivity.
  - exists detected. split; [exact Hd|]. rewrite <- Hlen. reflexivity.
Defined.

Lemma analysis_requests_witness :
  Capture.landmarks {| Capture.landmarks := [origin]; Capture.timestamp := 0 |}
  <> [].
Proof.
  destruct (@analysis_requests backend false blank
              {| Home.analysisResults := None;
                 Home.isAnalyzing := false;
                 Home.error := None;
                 Home.navigated := None |}
              {| Capture.landmarks := [origin]; Capture.timestamp := 0 |}
              {| path := "/classify";
                 authorization := None;
                 retry := false;
                 body := Classification [origin] |})
    as (Hl & _).
  - left. reflexivity.
  - exact Hl.
Defined.


End PagesExamples.
